(** * PartedFS: a filesystem overlay that stores one logical file as
      numbered part files on a wrapped filesystem

    Shallow embedding of [drive/partedfs.py].  The overlay methods are
    written against the interface of the wrapped filesystem (class
    [WrappedFS]); an in-memory implementation of that interface
    (module [Mem]) is used to run the methods on concrete directory
    contents.  Exceptions are results [Raise e], the state of the
    wrapped filesystem is threaded through the methods, and timestamps
    are integers. *)

From stdpp Require Import gmap strings list fin_maps sorting.
From Stdlib Require Import ZArith Ascii String.
From Stdlib Require Import DecimalString DecimalNat DecimalFacts.

Local Open Scope string_scope.
Local Open Scope Z_scope.
Local Open Scope list_scope.

(** ** Python built-ins used by the module *)

Module Py.

(** [c in s] for a one-character string [c]. *)
Fixpoint contains (c : ascii) (s : string) : bool :=
  match s with
  | EmptyString => false
  | String a s' => Ascii.eqb a c || contains c s'
  end.

(** [s.rsplit(c, 1)]: [None] when [c] does not occur in [s], otherwise
    the text before and after the last occurrence of [c]. *)
Fixpoint rsplit1 (c : ascii) (s : string) : option (string * string) :=
  match s with
  | EmptyString => None
  | String a s' =>
      match rsplit1 c s' with
      | Some (h, t) => Some (String a h, t)
      | None => if Ascii.eqb a c then Some (EmptyString, s') else None
      end
  end.

(** [s.split(c)]: the pieces of [s] between the occurrences of [c]. *)
Fixpoint split (c : ascii) (s : string) : list string :=
  match s with
  | EmptyString => [EmptyString]
  | String a s' =>
      if Ascii.eqb a c then EmptyString :: split c s'
      else match split c s' with
           | x :: xs => String a x :: xs
           | [] => [String a EmptyString]
           end
  end.

(** [sep.join(l)]. *)
Fixpoint join (sep : string) (l : list string) : string :=
  match l with
  | [] => EmptyString
  | [x] => x
  | x :: l' => x +:+ sep +:+ join sep l'
  end.

(** [str(n)] / [format] of a non-negative integer. *)
Definition str_of_nat (n : nat) : string :=
  NilZero.string_of_uint (Nat.to_uint n).

(** [sorted(l)] on strings: ascending code-point order. *)
Fixpoint insert_sorted (x : string) (l : list string) : list string :=
  match l with
  | [] => [x]
  | y :: l' => if String.leb x y then x :: l else y :: insert_sorted x l'
  end.

Definition sorted (l : list string) : list string :=
  foldr insert_sorted [] l.

(** [enumerate(l)]. *)
Fixpoint enumerate_from {A} (i : nat) (l : list A) : list (nat * A) :=
  match l with
  | [] => []
  | x :: l' => (i, x) :: enumerate_from (S i) l'
  end.

Definition enumerate {A} (l : list A) : list (nat * A) := enumerate_from 0 l.

(** [sum(l)] on integers. *)
Definition sum (l : list Z) : Z := foldr Z.add 0 l.

(** [max(l)] on integers; Python raises [ValueError] on the empty
    list, which is [None] here. *)
Definition max (l : list Z) : option Z :=
  match l with
  | [] => None
  | x :: l' => Some (foldl Z.max x l')
  end.

End Py.

(** ** Errors and results *)

Inductive error :=
| ResourceNotFoundError (path : string)
| ResourceInvalidError (path : string)
| DestinationExistsError (path : string)
| ParentDirectoryMissingError (path : string)
| BackReferenceError (path : string)
| ValueError
| AttributeError (attr : string).

Inductive result (A : Type) :=
| Ok (a : A)
| Raise (e : error).

Arguments Ok {A} a.
Arguments Raise {A} e.

(** [f] applied to the value of a result that is no error. *)
Definition on_ok {A B} (f : A → B) (r : result A) : result B :=
  match r with
  | Ok a => Ok (f a)
  | Raise e => Raise e
  end.

(** [[f(x) for x in l]] for an [f] that may raise: the first error
    ends the comprehension. *)
Fixpoint traverse {A B} (f : A → result B) (l : list A) : result (list B) :=
  match l with
  | [] => Ok []
  | x :: l' =>
      match f x with
      | Ok y => on_ok (cons y) (traverse f l')
      | Raise e => Raise e
      end
  end.

(** ** [fs.path] helpers imported by the module

    The functions of the [fs.path] library (release 0.5), where a
    backslash is an ordinary character. *)

Module Path.

Definition slash : ascii := "/"%char.
Definition dot : ascii := "."%char.

(** The components [normpath] drops or resolves. *)
Definition special (component : string) : bool :=
  String.eqb component ".." || String.eqb component "."
  || String.eqb component "".

(** The loop of [normpath] over the components; [stack] holds the
    components kept so far, last one first.  [None] when a [..] finds
    nothing to take back. *)
Fixpoint normalise (components stack : list string) : option (list string) :=
  match components with
  | [] => Some (rev stack)
  | c :: cs =>
      if special c then
        if String.eqb c ".." then
          match stack with
          | [] => None
          | _ :: stack' => normalise cs stack'
          end
        else normalise cs stack
      else normalise cs (c :: stack)
  end.

(** [normpath]: doubled slashes collapse, [.] components go, [..]
    components take back the component before them, a trailing slash
    goes; too many [..] raise.  (The library returns paths that need no
    normalising through a shortcut, with the same value.) *)
Definition normpath (path : string) : result string :=
  let prefix :=
    match path with
    | String "/" _ => "/"
    | _ => ""
    end in
  match normalise (Py.split slash path) [] with
  | Some components => Ok (prefix +:+ Py.join "/" components)
  | None => Raise (BackReferenceError path)
  end.

Definition abspath (path : string) : string :=
  match path with
  | String "/" _ => path
  | _ => "/" +:+ path
  end.

(** [pathsplit]: [(dirname, basename)]. *)
Definition pathsplit (path : string) : string * string :=
  match Py.rsplit1 slash path with
  | None => ("", path)
  | Some (h, t) => (if String.eqb h "" then "/" else h, t)
  end.

Definition dirname (path : string) : string := fst (pathsplit path).
Definition basename (path : string) : string := snd (pathsplit path).

(** [pathjoin] of a list of paths: empty paths are skipped, a path that starts
    with a slash discards what came before it, and the joined path is
    normalised. *)
Definition pathjoin (paths : list string) : result string :=
  let '(absolute, relpaths) :=
    fold_left
      (λ (acc : bool * list string) (p : string),
         match p with
         | EmptyString => acc
         | String "/" _ => (true, [p])
         | _ => (fst acc, snd acc ++ [p])
         end)
      paths (false, []) in
  on_ok (λ path, if absolute : bool then abspath path else path)
    (normpath (Py.join "/" relpaths)).

(** [splitext]: the path without its last extension, and the
    extension. *)
Definition splitext (path : string) : result (string * string) :=
  let '(parent_path, pathname) := pathsplit path in
  match Py.rsplit1 dot pathname with
  | None => Ok (path, "")
  | Some (pathname', ext) =>
      on_ok (λ path', (path', "." +:+ ext)) (pathjoin [parent_path; pathname'])
  end.

End Path.

(** ** [fnmatch] wildcards, as the wrapped filesystem's [listdir]
       interprets a wildcard string *)

Module Fnmatch.

Inductive tok :=
| TStar
| TAny
| TLit (c : ascii)
| TClass (negated : bool) (items : list (ascii * ascii)).

Fixpoint until_rbracket (s : string) : option (string * string) :=
  match s with
  | EmptyString => None
  | String c s' =>
      if Ascii.eqb c "]" then Some (EmptyString, s')
      else match until_rbracket s' with
           | Some (a, b) => Some (String c a, b)
           | None => None
           end
  end.

(** The text between [[] and the closing []], where a leading [!] and
    a []] right after it do not close the class. *)
Definition scan_class (s : string) : option (string * string) :=
  let '(p1, s1) :=
    match s with
    | String "!" s' => ("!", s')
    | _ => ("", s)
    end in
  let '(p2, s2) :=
    match s1 with
    | String "]" s' => ("]", s')
    | _ => ("", s1)
    end in
  match until_rbracket s2 with
  | Some (body, rest) => Some (p1 +:+ p2 +:+ body, rest)
  | None => None
  end.

Fixpoint class_items (s : string) : list (ascii * ascii) :=
  match s with
  | EmptyString => []
  | String a (String "-" (String b s')) => (a, b) :: class_items s'
  | String a s' => (a, a) :: class_items s'
  end.

Definition class_of (stuff : string) : tok :=
  match stuff with
  | String "!" s' => TClass true (class_items s')
  | _ => TClass false (class_items stuff)
  end.

Fixpoint translate_aux (fuel : nat) (pat : string) : list tok :=
  match fuel with
  | O => []
  | S fuel' =>
      match pat with
      | EmptyString => []
      | String c rest =>
          if Ascii.eqb c "*" then TStar :: translate_aux fuel' rest
          else if Ascii.eqb c "?" then TAny :: translate_aux fuel' rest
          else if Ascii.eqb c "[" then
            match scan_class rest with
            | Some (stuff, rest') => class_of stuff :: translate_aux fuel' rest'
            | None => TLit c :: translate_aux fuel' rest
            end
          else TLit c :: translate_aux fuel' rest
      end
  end.

Definition translate (pat : string) : list tok :=
  translate_aux (String.length pat) pat.

Definition in_range (c : ascii) (r : ascii * ascii) : bool :=
  (N.leb (N_of_ascii (fst r)) (N_of_ascii c)
   && N.leb (N_of_ascii c) (N_of_ascii (snd r)))%bool.

Definition tok_ok (t : tok) (c : ascii) : bool :=
  match t with
  | TStar | TAny => true
  | TLit a => Ascii.eqb a c
  | TClass neg items => xorb neg (existsb (in_range c) items)
  end.

(** Whole-string match of a token list. *)
Fixpoint match_toks (ts : list tok) (s : string) : bool :=
  match ts with
  | [] => match s with EmptyString => true | _ => false end
  | TStar :: ts' =>
      (fix star (s : string) : bool :=
         match_toks ts' s
         || match s with
            | EmptyString => false
            | String _ s' => star s'
            end) s
  | t :: ts' =>
      match s with
      | EmptyString => false
      | String c s' => tok_ok t c && match_toks ts' s'
      end
  end.

Definition fnmatch (pat name : string) : bool :=
  match_toks (translate pat) name.

(** The tokens of a pattern made of ordinary characters only. *)
Fixpoint lits (s : string) : list tok :=
  match s with
  | EmptyString => []
  | String c s' => TLit c :: lits s'
  end.

(** [plain s]: no wildcard character occurs in [s]. *)
Definition plain (s : string) : bool :=
  negb (Py.contains "*" s) && negb (Py.contains "?" s)
  && negb (Py.contains "[" s).

End Fnmatch.

(** ** Computations that may raise *)

(** A computation over the state [S] of the wrapped filesystem that
    returns a value or raises; the state reached so far is kept when it
    raises. *)
Definition M (S A : Type) : Type := S → result A * S.

Definition ret {S A} (a : A) : M S A := λ s, (Ok a, s).

Definition raise {S A} (e : error) : M S A := λ s, (Raise e, s).

Definition bind {S A B} (m : M S A) (k : A → M S B) : M S B :=
  λ s, match m s with
       | (Ok a, s') => k a s'
       | (Raise e, s') => (Raise e, s')
       end.

(** A read-only call on the wrapped filesystem. *)
Definition query {S A} (f : S → result A) : M S A := λ s, (f s, s).

(** A step that does not touch the wrapped filesystem. *)
Definition lift {S A} (r : result A) : M S A := λ s, (r, s).

Notation "x <- m ;; k" := (bind m (λ x, k))
  (at level 100, m at next level, right associativity).
Notation "m ;;; k" := (bind m (λ _, k))
  (at level 100, right associativity).

(** [[f(x) for x in l]], left to right. *)
Fixpoint mapM {S A B} (f : A → M S B) (l : list A) : M S (list B) :=
  match l with
  | [] => ret []
  | x :: l' => y <- f x ;; ys <- mapM f l' ;; ret (y :: ys)
  end.

(** [for x in l: f(x)]. *)
Fixpoint forM_ {S A} (l : list A) (f : A → M S unit) : M S unit :=
  match l with
  | [] => ret tt
  | x :: l' => f x ;;; forM_ l' f
  end.

(** ** The interface of the wrapped filesystem *)

(** The [wildcard] argument of [listdir]: a pattern or a predicate. *)
Inductive wildcard :=
| WPattern (pat : string)
| WCallable (f : string → bool).

Definition wildcard_ok (w : wildcard) (name : string) : bool :=
  match w with
  | WPattern pat => Fnmatch.fnmatch pat name
  | WCallable f => f name
  end.

(** The info dictionary the wrapped filesystem reports for one path. *)
Record part_info := {
  p_size : Z;
  p_created_time : Z;
  p_modified_time : Z;
  p_accessed_time : Z
}.

(** The file object the wrapped filesystem hands out on [open]. *)
Record handle := { h_path : string; h_mode : string }.

Class WrappedFS (S : Type) := {
  fs_exists : S → string → bool;
  fs_isdir : S → string → bool;
  fs_isfile : S → string → bool;
  (** [listdir(path, wildcard, full, absolute, dirs_only, files_only)] *)
  fs_listdir : S → string → option wildcard → bool → bool → bool → bool →
               result (list string);
  fs_getinfo : S → string → result part_info;
  fs_getsize : S → string → result Z;
  fs_open : string → string → M S handle;
  fs_remove : string → M S unit;
  fs_rename : string → string → M S unit;
  (** [copy(src, dst, overwrite)] *)
  fs_copy : string → string → bool → M S unit
}.

(** ** The file objects handed out by [open] *)

(** [class FilePart]: the constructor takes the wrapped file object and
    keeps nothing of it; the class defines no other method. *)
Module FilePart.

Inductive obj := Obj.

Definition __init__ (f : handle) : obj := Obj.

End FilePart.

(** [class PartedFile]: holds the list of parts; the class defines no
    other method. *)
Module PartedFile.

Record obj := Obj { parts : list FilePart.obj }.

Definition __init__ (parts : list FilePart.obj) : obj := Obj parts.

(** Attribute lookup on an instance: [parts] is the only attribute. *)
Definition getattr (self : obj) (name : string) : result (list FilePart.obj) :=
  if String.eqb name "parts" then Ok (parts self)
  else Raise (AttributeError name).

End PartedFile.

(** ** [class PartedFS] *)

Module PartedFS.

(** The aggregated info dictionary built by [getinfo]. *)
Record info := {
  info_parts : list part_info;
  info_size : Z;
  info_created_time : Z;
  info_modified_time : Z;
  info_accessed_time : Z
}.

Section Methods.

Context {S : Type} `{WrappedFS S}.

Record obj := Obj { wrapped_fs : S; max_part_size : Z }.

Definition __init__ (fs : S) (max_part_size : Z) : result obj :=
  Ok (Obj fs max_part_size).

Definition _encode (path : string) (part_index : nat) : string :=
  path +:+ ".part" +:+ Py.str_of_nat part_index.

Definition _decode (path : string) : result string :=
  on_ok fst (Path.splitext path).

Definition listparts (path : string) (full absolute : bool) : M S (list string) :=
  query (λ s, fs_listdir s (Path.dirname path)
                (Some (WPattern (Path.basename path +:+ ".part*")))
                full absolute false true).

Definition remove (path : string) : M S unit :=
  parts <- listparts path false false ;;
  forM_ parts (λ part, fs_remove part).

Definition listdir (path : string) (wildcard : option wildcard)
    (full absolute dirs_only files_only : bool) : M S (list string) :=
  dirs <- query (λ s, fs_listdir s path wildcard full absolute true false) ;;
  files <- query (λ s, fs_listdir s path (Some (WPattern "*.part0"))
                         full absolute false true) ;;
  files <- lift (traverse _decode files) ;;
  if dirs_only then ret dirs
  else if files_only then ret files
  else ret (dirs ++ files).

Definition exists_ (path : string) : M S bool :=
  query (λ s, Ok (fs_exists s path || fs_exists s (_encode path 0))).

Definition isfile (path : string) : M S bool :=
  query (λ s, Ok (fs_isfile s (_encode path 0))).

(** [isdir] is inherited from the wrapper class [WrapFS] of the
    filesystem library, whose methods hand the path to [self._encode]
    before they ask the wrapped filesystem.  The class overrides
    [_encode], so the wrapped filesystem is asked about part 0 of the
    path. *)
Definition isdir (path : string) : M S bool :=
  query (λ s, Ok (fs_isdir s (_encode path 0))).

Definition create_file_part (mode : string) (part_path : string) : M S FilePart.obj :=
  f <- fs_open part_path mode ;;
  ret (FilePart.__init__ f).

Definition open (path : string) (mode : string) : M S PartedFile.obj :=
  d <- isdir path ;;
  if d : bool then raise (ResourceInvalidError path)
  else if negb (Py.contains "w" mode) && negb (Py.contains "a" mode) then
    e <- exists_ path ;;
    if e : bool then
      ps <- listparts path false false ;;
      parts <- mapM (create_file_part mode) ps ;;
      ret (PartedFile.__init__ parts)
    else raise (ResourceNotFoundError path)
  else
    (if Py.contains "w" mode then
       e <- exists_ path ;;
       if e : bool then remove path else ret tt
     else ret tt) ;;;
    part <- create_file_part mode (_encode path 0) ;;
    ret (PartedFile.__init__ [part]).

Definition rename (src dst : string) : M S unit :=
  e <- exists_ src ;;
  if negb e then raise (ResourceNotFoundError src)
  else
    ps <- listparts src false false ;;
    forM_ (Py.enumerate (Py.sorted ps)) (λ '(idx, part),
      name <- lift (_decode part) ;;
      let part_src := _encode name idx in
      let part_dst := _encode dst idx in
      fs_rename part_src part_dst).

Definition py_max (l : list Z) : M S Z :=
  match Py.max l with
  | Some m => ret m
  | None => raise ValueError
  end.

Definition getsize (path : string) : M S Z :=
  e <- exists_ path ;;
  if negb e then raise (ResourceNotFoundError path)
  else
    ps <- listparts path false false ;;
    sizes <- mapM (λ part, query (λ s, fs_getsize s part)) ps ;;
    ret (Py.sum sizes).

Definition getinfo (path : string) : M S info :=
  e <- exists_ path ;;
  if negb e then raise (ResourceNotFoundError path)
  else
    ps <- listparts path false false ;;
    part_infos <- mapM (λ part, query (λ s, fs_getinfo s part)) ps ;;
    size <- getsize path ;;
    created_time <- py_max (p_modified_time <$> part_infos) ;;
    modified_time <- py_max (p_modified_time <$> part_infos) ;;
    accessed_time <- py_max (p_accessed_time <$> part_infos) ;;
    ret {| info_parts := part_infos;
           info_size := size;
           info_created_time := created_time;
           info_modified_time := modified_time;
           info_accessed_time := accessed_time |}.

Definition copy (src dst : string) (overwrite : bool) : M S unit :=
  e <- exists_ src ;;
  if negb e then raise (ResourceNotFoundError src)
  else
    ps <- listparts src false false ;;
    forM_ (Py.enumerate (Py.sorted ps)) (λ '(idx, part_src),
      let part_dst := _encode dst idx in
      fs_copy part_src part_dst overwrite).

End Methods.

End PartedFS.

(** ** An in-memory wrapped filesystem

    A reference implementation of the [WrappedFS] interface: a finite
    map from root-relative paths to directories and files.  It stands
    for the storage backend, which the module only reaches through the
    interface.  It has no clock: file times are part of the contents
    and a file created by [open] gets the times [epoch]. *)

Module Mem.

Record times := { t_created : Z; t_modified : Z; t_accessed : Z }.

Definition epoch : times := {| t_created := 0; t_modified := 0; t_accessed := 0 |}.

Inductive node :=
| Dir (t : times)
| File (data : list Byte.byte) (t : times).

Abbreviation fs := (gmap string node).

Definition is_dir_node (n : node) : bool :=
  match n with Dir _ => true | File _ _ => false end.

Definition is_file_node (n : node) : bool :=
  match n with Dir _ => false | File _ _ => true end.

(** Paths are looked up relative to the root: leading slashes are
    dropped, so ["/a/b"] and ["a/b"] name the same entry and [""] and
    ["/"] name the root. *)
Fixpoint norm (p : string) : string :=
  match p with
  | String "/" p' => norm p'
  | _ => p
  end.

Definition is_root (p : string) : bool := String.eqb (norm p) "".

Definition exists_ (s : fs) (p : string) : bool :=
  is_root p || match s !! norm p with Some _ => true | None => false end.

Definition isdir (s : fs) (p : string) : bool :=
  is_root p || match s !! norm p with Some n => is_dir_node n | None => false end.

Definition isfile (s : fs) (p : string) : bool :=
  negb (is_root p) && match s !! norm p with Some n => is_file_node n | None => false end.

(** The directory part of a root-relative path. *)
Definition parent (p : string) : string :=
  match Py.rsplit1 Path.slash p with
  | Some (h, _) => h
  | None => ""
  end.

(** [child_name d k]: the name of entry [k] inside directory [d], when
    [k] lies directly in [d]. *)
Definition child_name (d k : string) : option string :=
  match Py.rsplit1 Path.slash k with
  | None => if String.eqb d "" && negb (String.eqb k "") then Some k else None
  | Some (h, t) =>
      if String.eqb h d && negb (String.eqb h "") && negb (String.eqb t "")
      then Some t else None
  end.

Fixpoint rstrip_slash (s : string) : string :=
  match s with
  | EmptyString => EmptyString
  | String c s' =>
      match rstrip_slash s' with
      | EmptyString => if Ascii.eqb c "/" then EmptyString else String c EmptyString
      | r => String c r
      end
  end.

(** [pathcombine] of the library. *)
Definition pathcombine (path1 path2 : string) : string :=
  if String.eqb path1 "" then path2
  else rstrip_slash path1 +:+ "/" +:+ norm path2.

Definition abspath (p : string) : string :=
  match p with
  | String "/" _ => p
  | _ => "/" +:+ p
  end.

(** A name an entry can have inside a directory: not empty and free of
    slashes. *)
Definition is_name (n : string) : bool :=
  negb (String.eqb n "") && negb (Py.contains Path.slash n).

(** The root-relative path of the entry called [n] inside the directory
    with root-relative path [d]. *)
Definition join (d n : string) : string :=
  if String.eqb d "" then n else d +:+ "/" +:+ n.

(** The entries directly inside directory [d] (root-relative), with
    their nodes. *)
Definition children (s : fs) (d : string) : list (string * node) :=
  omap (λ kv, (λ n, (n, snd kv)) <$> child_name d (fst kv)) (map_to_list s).

Definition listdir (s : fs) (path : string) (wildcard : option wildcard)
    (full absolute dirs_only files_only : bool) : result (list string) :=
  if negb (isdir s path) then
    Raise (if exists_ s path then ResourceInvalidError path
           else ResourceNotFoundError path)
  else if dirs_only && files_only then Raise ValueError
  else
    let entries := children s (norm path) in
    let entries :=
      match wildcard with
      | None => entries
      | Some w => List.filter (λ e, wildcard_ok w (fst e)) entries
      end in
    let entries :=
      if dirs_only then List.filter (λ e, is_dir_node (snd e)) entries
      else if files_only then List.filter (λ e, is_file_node (snd e)) entries
      else entries in
    let names := fst <$> entries in
    Ok (if full then pathcombine path <$> names
        else if absolute then (λ n, abspath (pathcombine path n)) <$> names
        else names).

Definition info_of (n : node) : part_info :=
  match n with
  | Dir t =>
      {| p_size := 0; p_created_time := t_created t;
         p_modified_time := t_modified t; p_accessed_time := t_accessed t |}
  | File data t =>
      {| p_size := Z.of_nat (List.length data); p_created_time := t_created t;
         p_modified_time := t_modified t; p_accessed_time := t_accessed t |}
  end.

Definition getinfo (s : fs) (p : string) : result part_info :=
  match s !! norm p with
  | Some n => Ok (info_of n)
  | None => if is_root p then Ok (info_of (Dir epoch))
            else Raise (ResourceNotFoundError p)
  end.

Definition getsize (s : fs) (p : string) : result Z :=
  match s !! norm p with
  | Some (File data _) => Ok (Z.of_nat (List.length data))
  | Some (Dir _) => Raise (ResourceInvalidError p)
  | None => if is_root p then Raise (ResourceInvalidError p)
            else Raise (ResourceNotFoundError p)
  end.

(** [open]: a mode with [w] creates or truncates the file, a mode with
    [a] creates it when it is missing, any other mode needs the file
    to be there. *)
Definition open (p mode : string) : M fs handle :=
  λ s,
    let h := {| h_path := p; h_mode := mode |} in
    if is_root p then (Raise (ResourceInvalidError p), s)
    else if negb (isdir s (parent (norm p))) then
      (Raise (if Py.contains "w" mode || Py.contains "a" mode
              then ParentDirectoryMissingError p
              else ResourceNotFoundError p), s)
    else
      match s !! norm p with
      | Some (Dir _) => (Raise (ResourceInvalidError p), s)
      | Some (File data t) =>
          if Py.contains "w" mode then (Ok h, <[norm p := File [] t]> s)
          else (Ok h, s)
      | None =>
          if Py.contains "w" mode || Py.contains "a" mode
          then (Ok h, <[norm p := File [] epoch]> s)
          else (Raise (ResourceNotFoundError p), s)
      end.

Definition remove (p : string) : M fs unit :=
  λ s,
    match s !! norm p with
    | Some (File _ _) => (Ok tt, delete (norm p) s)
    | Some (Dir _) => (Raise (ResourceInvalidError p), s)
    | None =>
        (Raise (if is_root p then ResourceInvalidError p
                else ResourceNotFoundError p), s)
    end.

(** [rename] of a file; directories are moved by the directory
    operations, which the overlay passes through. *)
Definition rename (src dst : string) : M fs unit :=
  λ s,
    match s !! norm src with
    | None => (Raise (ResourceNotFoundError src), s)
    | Some (Dir _) => (Raise (ResourceInvalidError src), s)
    | Some (File data t) =>
        if negb (isdir s (parent (norm dst))) then
          (Raise (ParentDirectoryMissingError dst), s)
        else if exists_ s dst then (Raise (DestinationExistsError dst), s)
        else (Ok tt, <[norm dst := File data t]> (delete (norm src) s))
    end.

Definition copy (src dst : string) (overwrite : bool) : M fs unit :=
  λ s,
    match s !! norm src with
    | None => (Raise (ResourceNotFoundError src), s)
    | Some (Dir _) => (Raise (ResourceInvalidError src), s)
    | Some (File data t) =>
        if negb (isdir s (parent (norm dst))) then
          (Raise (ParentDirectoryMissingError dst), s)
        else if isdir s dst then (Raise (ResourceInvalidError dst), s)
        else if negb overwrite && exists_ s dst then
          (Raise (DestinationExistsError dst), s)
        else (Ok tt, <[norm dst := File data t]> s)
    end.

#[global] Instance wrapped : WrappedFS fs := {|
  fs_exists := exists_;
  fs_isdir := isdir;
  fs_isfile := isfile;
  fs_listdir := listdir;
  fs_getinfo := getinfo;
  fs_getsize := getsize;
  fs_open := open;
  fs_remove := remove;
  fs_rename := rename;
  fs_copy := copy
|}.

(** The bytes of the file stored at [p], if there is one. *)
Definition read_file (s : fs) (p : string) : option (list Byte.byte) :=
  match s !! norm p with
  | Some (File data _) => Some data
  | _ => None
  end.

End Mem.

(** ** Client code: a write session and a read-back, as the tests drive
       a filesystem ([file = fs.open(path, "wb"); file.write(data);
       file.close()] and [fs.open(path, "r").read()]).  A method call
       starts with the attribute lookup on the object. *)

Section Client.

Context {S : Type} `{WrappedFS S}.

Definition write_session (path : string) (payload : list Byte.byte) : M S unit :=
  file <- PartedFS.open path "wb" ;;
  _ <- query (λ _, PartedFile.getattr file "write") ;;
  _ <- query (λ _, PartedFile.getattr file "close") ;;
  ret tt.

Definition read_back (path : string) : M S (list Byte.byte) :=
  file <- PartedFS.open path "rb" ;;
  _ <- query (λ _, PartedFile.getattr file "read") ;;
  ret [].

End Client.

(** The bytes held by the listed parts, concatenated in list order. *)
Definition stored_bytes (s : Mem.fs) (parts : list string) : list Byte.byte :=
  List.concat (omap (Mem.read_file s) parts).

(** ** Notions used in the statements *)

(** [n] passes the optional wildcard [w]. *)
Definition wildcard_holds (w : option wildcard) (n : string) : Prop :=
  match w with
  | None => True
  | Some w => wildcard_ok w n = true
  end.

(** [m] is the greatest element of [l]. *)
Definition is_max (m : Z) (l : list Z) : Prop :=
  m ∈ l ∧ ∀ x, x ∈ l → x ≤ m.

(** Code-point order on strings. *)
Definition str_le (x y : string) : Prop := String.leb x y = true.

(** No subdirectory of [path] has the name of a logical file of
    [path]. *)
Definition no_name_clash (s : Mem.fs) (path : string) : Prop :=
  ∀ n t, s !! Mem.join (Mem.norm path) n = Some (Mem.Dir t) →
         ∀ data t', s !! Mem.join (Mem.norm path) (n +:+ ".part0")
                    ≠ Some (Mem.File data t').

(** No file of [path] is called [...part0]: its logical name would be
    [..], which the path library refuses. *)
Definition no_backref_name (s : Mem.fs) (path : string) : Prop :=
  ∀ data t, s !! Mem.join (Mem.norm path) "...part0" ≠ Some (Mem.File data t).

(** No file of [path] is called [..part0] or [...part0]: the logical
    names [.] and [..] are the ones decoding does not give back. *)
Definition no_dot_names (s : Mem.fs) (path : string) : Prop :=
  no_backref_name s path
  ∧ ∀ data t, s !! Mem.join (Mem.norm path) "..part0" ≠ Some (Mem.File data t).

(** ** Sample directory contents *)

Module Sample.

Import Mem.

Definition bA : list Byte.byte := [Byte.x41].
Definition bB : list Byte.byte := [Byte.x42; Byte.x42].
Definition bC : list Byte.byte := [Byte.x43; Byte.x43; Byte.x43].

Definition at_ (c m a : Z) : times :=
  {| t_created := c; t_modified := m; t_accessed := a |}.

(** A directory [sub] next to the parted file [big.tar]. *)
Definition listing : fs :=
  <["sub" := Dir epoch]>
    (<["big.tar.part0" := File bA epoch]>
       (<["big.tar.part1" := File bB epoch]> ∅)).

(** A parted file [f] whose part indices have gaps. *)
Definition gaps : fs :=
  <["f.part0" := File bA (at_ 1 5 9)]>
    (<["f.part2" := File bB (at_ 7 2 3)]>
       (<["f.part5" := File bC (at_ 4 6 8)]> ∅)).

(** A parted file [f] with parts 0 and 1. *)
Definition contiguous : fs :=
  <["f.part0" := File bA epoch]> (<["f.part1" := File bB epoch]> ∅).

(** A parted file inside the directory [backups]. *)
Definition backups : fs :=
  <["backups" := Dir epoch]>
    (<["backups/backup.tar.part0" := File bC epoch]> ∅).

(** A directory [d] next to parts of a logical file of the same name. *)
Definition dir_and_parts : fs :=
  <["d" := Dir epoch]>
    (<["d.part0" := File bA epoch]>
       (<["d.part1" := File bB epoch]> ∅)).

(** Parts 0, 2 and 10 of [f], and a file whose name goes on after
    [.part] with something that is no index. *)
Definition bD : list Byte.byte := [Byte.x44; Byte.x44; Byte.x44; Byte.x44].

Definition odd_names : fs :=
  <["f.part0" := File bA epoch]>
    (<["f.part2" := File bB epoch]>
       (<["f.part10" := File bC epoch]>
          (<["f.partial" := File bD epoch]> ∅))).

End Sample.
(** * Properties *)

(** ** Strings *)

Lemma app_assoc_s (a b c : string) : (a +:+ b) +:+ c = a +:+ (b +:+ c).
Proof.
  induction a as [|x a IH]; [reflexivity|].
  change (String x ((a +:+ b) +:+ c) = String x (a +:+ (b +:+ c))).
  f_equal. exact IH.
Qed.

Lemma length_app_s (a b : string) :
  String.length (a +:+ b) = (String.length a + String.length b)%nat.
Proof.
  induction a as [|c a IH]; [reflexivity|].
  change (String c a +:+ b) with (String c (a +:+ b)). simpl.
  rewrite IH. reflexivity.
Qed.

Lemma contains_app (c : ascii) (a b : string) :
  Py.contains c (a +:+ b) = Py.contains c a || Py.contains c b.
Proof.
  induction a as [|x a IH]; simpl; [reflexivity|].
  rewrite IH. apply orb_assoc.
Qed.

Lemma rsplit1_None (c : ascii) (s : string) :
  Py.rsplit1 c s = None ↔ Py.contains c s = false.
Proof.
  induction s as [|a s IH]; simpl; [tauto|].
  destruct (Py.rsplit1 c s) as [[h t]|].
  - split; [discriminate|]. intros Hc. apply orb_false_elim in Hc as [_ Hc].
    apply IH in Hc. discriminate.
  - destruct (Ascii.eqb a c); simpl; split; try discriminate; try tauto.
Qed.

(** [rsplit1] cuts at the last occurrence of the separator. *)
Lemma rsplit1_Some (c : ascii) (s h t : string) :
  Py.rsplit1 c s = Some (h, t) ↔ s = h +:+ String c t ∧ Py.contains c t = false.
Proof.
  revert h. induction s as [|a s IH]; intros h; simpl.
  - split; [discriminate|]. intros [Hs _]. destruct h; discriminate.
  - destruct (Py.rsplit1 c s) as [[h' t']|] eqn:E.
    + split.
      * intros [= <- <-]. destruct (proj1 (IH h') eq_refl) as [-> Ht]. auto.
      * intros [Hs Ht]. destruct h as [|b h]; simpl in Hs.
        -- injection Hs as -> ->. apply rsplit1_None in Ht. congruence.
        -- injection Hs as -> ->.
           assert (Some (h', t') = Some (h, t)) as E' by (apply IH; auto).
           injection E' as -> ->. reflexivity.
    + split.
      * destruct (Ascii.eqb a c) eqn:Eac; [|discriminate].
        intros [= <- <-]. apply Ascii.eqb_eq in Eac as ->.
        split; [reflexivity|]. apply rsplit1_None. exact E.
      * intros [Hs Ht]. destruct h as [|b h]; simpl in Hs.
        -- injection Hs as -> ->. rewrite Ascii.eqb_refl. reflexivity.
        -- injection Hs as -> ->.
           assert (None = Some (h, t)) as E' by (apply IH; auto).
           discriminate.
Qed.

Example rsplit1_ex : Py.rsplit1 Path.dot "big.tar.part0" = Some ("big.tar", "part0").
Proof. reflexivity. Qed.

Example splitext_ex :
  Path.splitext "foo/bar/baz.txt" = Ok ("foo/bar/baz", ".txt").
Proof. reflexivity. Qed.

Lemma split_no_sep (c : ascii) (x : string) :
  Py.contains c x = false → Py.split c x = [x].
Proof.
  induction x as [|a x IH]; simpl; [reflexivity|].
  intros Hc. apply orb_false_elim in Hc as [Hac Hc].
  rewrite Hac, (IH Hc). reflexivity.
Qed.

(** ** Normal paths *)

Example normpath_ex :
  Path.normpath "/foo//bar/frob/../baz" = Ok "/foo/bar/baz"
  ∧ Path.normpath "a/" = Ok "a"
  ∧ Path.normpath "./f" = Ok "f"
  ∧ Path.normpath "foo/../../bar" = Raise (BackReferenceError "foo/../../bar").
Proof. repeat split; reflexivity. Qed.

(** A name that is no [.] and no [..] is its own normal form. *)
Lemma normpath_name (x : string) :
  Py.contains Path.slash x = false →
  Path.special x = false →
  Path.normpath x = Ok x.
Proof.
  intros Hx Hs. unfold Path.normpath.
  rewrite (split_no_sep _ _ Hx). simpl. rewrite Hs. simpl.
  destruct x as [|c x]; [reflexivity|].
  simpl in Hx. apply orb_false_elim in Hx as [Hc _].
  destruct c as [[] [] [] [] [] [] [] []]; try reflexivity. discriminate Hc.
Qed.

(** Joining nothing with a name that is no [.] and no [..] gives the
    name. *)
Lemma pathjoin_name (x : string) :
  Py.contains Path.slash x = false →
  x ≠ "." → x ≠ ".." →
  Path.pathjoin [""; x] = Ok x.
Proof.
  intros Hx Hd Hdd. destruct x as [|c x]; [reflexivity|].
  assert (Path.special (String c x) = false) as Hs.
  { unfold Path.special.
    rewrite (proj2 (String.eqb_neq _ _) Hdd), (proj2 (String.eqb_neq _ _) Hd).
    reflexivity. }
  pose proof (normpath_name (String c x) Hx Hs) as Hn.
  unfold Path.pathjoin. simpl in Hx. apply orb_false_elim in Hx as [Hc _].
  assert (fold_left
            (λ (acc : bool * list string) (p : string),
               match p with
               | EmptyString => acc
               | String "/" _ => (true, [p])
               | _ => (fst acc, snd acc ++ [p])
               end)
            [""; String c x] (false, []) = (false, [String c x])) as ->.
  { simpl. destruct c as [[] [] [] [] [] [] [] []]; try reflexivity.
    discriminate Hc. }
  simpl Py.join. rewrite Hn. reflexivity.
Qed.

(** ** [sorted] and [max] *)

Lemma insert_sorted_perm (x : string) (l : list string) :
  Py.insert_sorted x l ≡ₚ x :: l.
Proof.
  induction l as [|y l IH]; simpl; [reflexivity|].
  destruct (String.leb x y); [reflexivity|].
  rewrite IH. apply Permutation_swap.
Qed.

Lemma sorted_perm (l : list string) : Py.sorted l ≡ₚ l.
Proof.
  induction l as [|x l IH]; simpl; [reflexivity|].
  unfold Py.sorted in *. simpl. rewrite insert_sorted_perm, IH. reflexivity.
Qed.

Lemma insert_sorted_HdRel (a x : string) (l : list string) :
  str_le a x → HdRel str_le a l → HdRel str_le a (Py.insert_sorted x l).
Proof.
  intros Hax Hal. destruct l as [|y l]; simpl; [constructor; exact Hax|].
  destruct (String.leb x y); constructor; [exact Hax|].
  inversion Hal; assumption.
Qed.

Lemma insert_sorted_Sorted (x : string) (l : list string) :
  Sorted str_le l → Sorted str_le (Py.insert_sorted x l).
Proof.
  induction 1 as [|y l Hs IH Hhd]; simpl; [repeat constructor|].
  destruct (String.leb x y) eqn:E.
  - constructor; [constructor; assumption|]. constructor. exact E.
  - constructor; [exact IH|]. apply insert_sorted_HdRel; [|exact Hhd].
    destruct (String.leb_total x y) as [Hxy|Hyx]; [congruence|exact Hyx].
Qed.

(** [sorted] returns the arrangement of its argument in ascending
    code-point order. *)
Lemma sorted_Sorted (l : list string) : Sorted str_le (Py.sorted l).
Proof.
  induction l as [|x l IH]; [constructor|].
  unfold Py.sorted in *. simpl. apply insert_sorted_Sorted. exact IH.
Qed.

(** Code-point order puts [part10] before [part2]. *)
Example sorted_ex :
  Py.sorted ["f.part2"; "f.part10"; "f.part0"] = ["f.part0"; "f.part10"; "f.part2"].
Proof. reflexivity. Qed.

Lemma foldl_max_spec (l : list Z) : ∀ a, is_max (foldl Z.max a l) (a :: l).
Proof.
  induction l as [|b l IH]; intros a; simpl.
  - split; [left|]. intros x Hx. apply list_elem_of_singleton in Hx. lia.
  - destruct (IH (Z.max a b)) as [Hin Hle]. split.
    + apply elem_of_cons in Hin as [Heq | Hin].
      * rewrite Heq. destruct (Z.max_spec a b) as [[_ ->] | [_ ->]].
        -- right. left.
        -- left.
      * right. right. exact Hin.
    + intros x Hx. pose proof (Hle (Z.max a b) ltac:(left)) as Hab.
      apply elem_of_cons in Hx as [-> | Hx]; [lia|].
      apply elem_of_cons in Hx as [-> | Hx]; [lia|].
      apply Hle. right. exact Hx.
Qed.

Lemma py_max_spec (l : list Z) (m : Z) : Py.max l = Some m → is_max m l.
Proof.
  destruct l as [|a l]; simpl; [discriminate|].
  intros [= <-]. apply foldl_max_spec.
Qed.

Lemma py_max_nonempty (l : list Z) : l ≠ [] → ∃ m, Py.max l = Some m.
Proof. destruct l; [congruence|]. simpl. eauto. Qed.

(** ** Wildcards *)

Lemma match_toks_star (ts : list Fnmatch.tok) (s : string) :
  Fnmatch.match_toks (Fnmatch.TStar :: ts) s
  = Fnmatch.match_toks ts s
    || match s with
       | EmptyString => false
       | String _ s' => Fnmatch.match_toks (Fnmatch.TStar :: ts) s'
       end.
Proof. destruct s; reflexivity. Qed.

(** A leading [*] lets the rest of the pattern match any suffix. *)
Lemma match_toks_star_spec (ts : list Fnmatch.tok) (s : string) :
  Fnmatch.match_toks (Fnmatch.TStar :: ts) s = true
  ↔ ∃ x y, s = x +:+ y ∧ Fnmatch.match_toks ts y = true.
Proof.
  induction s as [|c s IH]; rewrite match_toks_star.
  - rewrite orb_false_r. split.
    + intros Hm. exists "", "". auto.
    + intros (x & y & Hs & Hm). destruct x; [|discriminate].
      change ("" +:+ y) with y in Hs. subst y. exact Hm.
  - rewrite orb_true_iff, IH. split.
    + intros [Hm | (x & y & -> & Hm)].
      * exists "", (String c s). auto.
      * exists (String c x), y. auto.
    + intros (x & y & Hs & Hm). destruct x as [|c' x].
      * change ("" +:+ y) with y in Hs. subst y. auto.
      * injection Hs as -> ->. right. eauto.
Qed.

Lemma match_toks_lits (l s : string) :
  Fnmatch.match_toks (Fnmatch.lits l) s = true ↔ s = l.
Proof.
  revert s. induction l as [|c l IH]; intros s; simpl.
  - destruct s; split; congruence.
  - destruct s as [|c' s]; [split; discriminate|].
    rewrite andb_true_iff, IH, Ascii.eqb_eq. split.
    + intros [-> ->]. reflexivity.
    + intros [= -> ->]. auto.
Qed.

Lemma match_toks_only_star (s : string) :
  Fnmatch.match_toks [Fnmatch.TStar] s = true.
Proof.
  induction s as [|c s IH]; rewrite match_toks_star; [reflexivity|].
  rewrite IH. apply orb_true_r.
Qed.

Lemma match_toks_lits_star (a s : string) :
  Fnmatch.match_toks (Fnmatch.lits a ++ [Fnmatch.TStar]) s = true
  ↔ ∃ suffix, s = a +:+ suffix.
Proof.
  revert s. induction a as [|c a IH]; intros s.
  - simpl Fnmatch.lits. simpl app. rewrite match_toks_only_star.
    split; [eauto|auto].
  - simpl. destruct s as [|c' s].
    + split; [discriminate|]. intros [suffix Hs]. discriminate.
    + rewrite andb_true_iff, IH, Ascii.eqb_eq. split.
      * intros [-> [suffix ->]]. exists suffix. reflexivity.
      * intros [suffix Hs]. injection Hs as -> ->. eauto.
Qed.

Lemma plain_app (a b : string) :
  Fnmatch.plain (a +:+ b) = Fnmatch.plain a && Fnmatch.plain b.
Proof.
  unfold Fnmatch.plain. rewrite !contains_app, !negb_orb.
  destruct (Py.contains "*" a), (Py.contains "?" a), (Py.contains "[" a),
    (Py.contains "*" b), (Py.contains "?" b), (Py.contains "[" b); reflexivity.
Qed.

Lemma translate_aux_plain (a rest : string) (fuel : nat) :
  Fnmatch.plain a = true →
  (String.length a ≤ fuel)%nat →
  Fnmatch.translate_aux (fuel + String.length rest) (a +:+ rest)
  = Fnmatch.lits a
    ++ Fnmatch.translate_aux (fuel - String.length a + String.length rest) rest.
Proof.
  revert fuel. induction a as [|c a IH]; intros fuel Hp Hlen.
  - simpl. rewrite Nat.sub_0_r. reflexivity.
  - simpl in Hlen. destruct fuel as [|fuel]; [lia|].
    unfold Fnmatch.plain in Hp. simpl in Hp.
    rewrite !negb_orb in Hp.
    apply andb_prop in Hp as [Hp H3]. apply andb_prop in Hp as [H1 H2].
    apply andb_prop in H1 as [H1 H1']. apply andb_prop in H2 as [H2 H2'].
    apply andb_prop in H3 as [H3 H3'].
    apply negb_true_iff in H1, H2, H3.
    change ((String c a) +:+ rest) with (String c (a +:+ rest)).
    simpl. rewrite H1, H2, H3.
    change (String.length (String c a)) with (S (String.length a)).
    rewrite IH; [reflexivity| |lia].
    unfold Fnmatch.plain. rewrite H1', H2', H3'. reflexivity.
Qed.

Lemma translate_plain_star (a : string) :
  Fnmatch.plain a = true →
  Fnmatch.translate (a +:+ "*") = Fnmatch.lits a ++ [Fnmatch.TStar].
Proof.
  intros Hp. unfold Fnmatch.translate. rewrite length_app_s.
  rewrite translate_aux_plain by (auto; lia).
  rewrite Nat.sub_diag. reflexivity.
Qed.

(** The wildcard of [listdir]: names that end in [.part0]. *)
Lemma fnmatch_part0 (n : string) :
  Fnmatch.fnmatch "*.part0" n = true ↔ ∃ x, n = x +:+ ".part0".
Proof.
  change (Fnmatch.fnmatch "*.part0" n)
    with (Fnmatch.match_toks (Fnmatch.TStar :: Fnmatch.lits ".part0") n).
  rewrite match_toks_star_spec. split.
  - intros (x & y & -> & Hm). apply match_toks_lits in Hm as ->. eauto.
  - intros [x ->]. exists x, ".part0". split; [reflexivity|].
    apply match_toks_lits. reflexivity.
Qed.

(** The wildcard of [listparts], for a basename without wildcard
    characters: names that start with the basename and [.part]. *)
Lemma fnmatch_part_star (base n : string) :
  Fnmatch.plain base = true →
  Fnmatch.fnmatch (base +:+ ".part*") n = true
  ↔ ∃ suffix, n = base +:+ ".part" +:+ suffix.
Proof.
  intros Hp. unfold Fnmatch.fnmatch.
  change (base +:+ ".part*") with (base +:+ (".part" +:+ "*")).
  rewrite <- app_assoc_s.
  rewrite translate_plain_star by (rewrite plain_app, Hp; reflexivity).
  rewrite match_toks_lits_star.
  split; intros [suffix ->]; exists suffix;
    [apply app_assoc_s | symmetry; apply app_assoc_s].
Qed.

Example fnmatch_ex :
  Fnmatch.fnmatch "*.part0" "big.tar.part0" = true
  ∧ Fnmatch.fnmatch "*.part0" "big.tar.part1" = false
  ∧ Fnmatch.fnmatch "f.part*" "f.part10" = true
  ∧ Fnmatch.fnmatch "f[0-9].part*" "f7.part" = true
  ∧ Fnmatch.fnmatch "f[!0-9].part*" "f7.part" = false.
Proof. repeat split; reflexivity. Qed.

(** ** The path codec *)

Lemma decode_part0 (x : string) :
  Py.contains Path.slash x = false →
  x ≠ "." → x ≠ ".." →
  PartedFS._decode (x +:+ ".part0") = Ok x.
Proof.
  intros Hx Hd Hdd. unfold PartedFS._decode, Path.splitext, Path.pathsplit.
  assert (Py.rsplit1 Path.slash (x +:+ ".part0") = None) as ->.
  { apply rsplit1_None. rewrite contains_app, Hx. reflexivity. }
  assert (Py.rsplit1 Path.dot (x +:+ ".part0") = Some (x, "part0")) as ->.
  { apply rsplit1_Some. split; reflexivity. }
  rewrite (pathjoin_name x Hx Hd Hdd). reflexivity.
Qed.

(** The two names the suffix does not simply come off: the logical
    name [.] is normalised away, the logical name [..] is refused. *)
Example decode_dot_names :
  PartedFS._decode "..part0" = Ok ""
  ∧ PartedFS._decode "...part0" = Raise (BackReferenceError "..").
Proof. split; reflexivity. Qed.

Example encode_ex : PartedFS._encode "backup.tar" 12 = "backup.tar.part12".
Proof. reflexivity. Qed.

Example decode_ex : PartedFS._decode "backup.tar.part12" = Ok "backup.tar".
Proof. reflexivity. Qed.

(** ** The in-memory filesystem *)

Lemma child_name_Some (d k n : string) :
  Mem.child_name d k = Some n ↔ Mem.is_name n = true ∧ k = Mem.join d n.
Proof.
  unfold Mem.child_name, Mem.is_name, Mem.join.
  destruct (Py.rsplit1 Path.slash k) as [[h t]|] eqn:E.
  - apply rsplit1_Some in E as [-> Ht]. split.
    + destruct (String.eqb h d) eqn:Ehd; simpl; [|discriminate].
      apply String.eqb_eq in Ehd as ->.
      destruct (String.eqb d "") eqn:Ed; simpl; [discriminate|].
      destruct (String.eqb t "") eqn:Et; simpl; [discriminate|].
      intros [= Heq]. subst n. rewrite Et, Ht. auto.
    + intros [Hn Hk]. apply andb_prop in Hn as [Hn1 Hn2].
      apply negb_true_iff in Hn1, Hn2.
      destruct (String.eqb d "") eqn:Ed.
      * exfalso. subst n. rewrite contains_app in Hn2. simpl in Hn2.
        rewrite orb_true_r in Hn2. discriminate.
      * change (d +:+ "/" +:+ n) with (d +:+ String Path.slash n) in Hk.
        assert (Py.rsplit1 Path.slash (d +:+ String Path.slash n) = Some (d, n)) as E'
          by (apply rsplit1_Some; auto).
        assert (Py.rsplit1 Path.slash (h +:+ String Path.slash t) = Some (h, t)) as E2
          by (apply rsplit1_Some; auto).
        rewrite <- Hk in E'. rewrite E2 in E'. injection E' as -> ->.
        rewrite String.eqb_refl, Ed, Hn1. reflexivity.
  - apply rsplit1_None in E. split.
    + destruct (String.eqb d "") eqn:Ed; simpl; [|discriminate].
      destruct (String.eqb k "") eqn:Ek; simpl; [discriminate|].
      intros [= Heq]. subst n. rewrite Ek, E. auto.
    + intros [Hn ->]. apply andb_prop in Hn as [Hn1 Hn2].
      apply negb_true_iff in Hn1, Hn2.
      destruct (String.eqb d "") eqn:Ed.
      * rewrite Hn1. reflexivity.
      * exfalso. rewrite contains_app in E. simpl in E.
        rewrite orb_true_r in E. discriminate.
Qed.

(** The children of a directory are the entries stored under the
    directory's path joined with a name. *)
Lemma elem_of_children (s : Mem.fs) (d n : string) (v : Mem.node) :
  (n, v) ∈ Mem.children s d ↔ Mem.is_name n = true ∧ s !! Mem.join d n = Some v.
Proof.
  unfold Mem.children. rewrite list_elem_of_omap. split.
  - intros [[k v'] [Hin Hf]]. simpl in Hf.
    destruct (Mem.child_name d k) as [n'|] eqn:E; [|discriminate].
    simpl in Hf. injection Hf as -> ->.
    apply child_name_Some in E as [Hn ->].
    apply elem_of_map_to_list in Hin. auto.
  - intros [Hn Hl]. exists (Mem.join d n, v). split.
    + apply elem_of_map_to_list. exact Hl.
    + simpl. rewrite (proj2 (child_name_Some d (Mem.join d n) n)) by auto.
      reflexivity.
Qed.

Lemma NoDup_children (s : Mem.fs) (d : string) :
  NoDup (fst <$> Mem.children s d).
Proof.
  unfold Mem.children.
  pose proof (NoDup_fst_map_to_list s) as Hnd.
  induction (map_to_list s) as [|[k v] l IH]; simpl; [constructor|].
  rewrite fmap_cons in Hnd. apply NoDup_cons in Hnd as [Hk Hnd].
  destruct (Mem.child_name d k) as [n|] eqn:E; simpl; [|auto].
  apply NoDup_cons. split; [|auto].
  intros Hin. apply list_elem_of_fmap in Hin as [[n' v'] [Heq Hin]].
  simpl in Heq. subst n'.
  apply list_elem_of_omap in Hin as [[k2 v2] [Hin2 Hf]]. simpl in Hf.
  destruct (Mem.child_name d k2) as [n2|] eqn:E2; [|discriminate].
  simpl in Hf. injection Hf as -> ->.
  apply child_name_Some in E as [_ ->]. apply child_name_Some in E2 as [_ ->].
  apply Hk. apply list_elem_of_fmap. exists (Mem.join d n, v'). auto.
Qed.

Lemma NoDup_fst_filter {A} (f : string * A → bool) (l : list (string * A)) :
  NoDup (fst <$> l) → NoDup (fst <$> List.filter f l).
Proof.
  induction l as [|x l IH]; simpl; [auto|].
  intros Hnd. apply NoDup_cons in Hnd as [Hx Hnd].
  destruct (f x); [|auto].
  simpl. apply NoDup_cons. split; [|auto].
  intros Hin. apply Hx. apply list_elem_of_fmap in Hin as [y [-> Hy]].
  apply list_elem_of_fmap. exists y. split; [reflexivity|].
  apply list_elem_of_In in Hy. apply filter_In in Hy as [Hy _].
  apply list_elem_of_In. exact Hy.
Qed.

Lemma elem_of_filter {A} (f : A → bool) (l : list A) (x : A) :
  x ∈ List.filter f l ↔ x ∈ l ∧ f x = true.
Proof. rewrite !list_elem_of_In. apply filter_In. Qed.

Lemma elem_of_fst {A} (l : list (string * A)) (n : string) :
  n ∈ fst <$> l ↔ ∃ v, (n, v) ∈ l.
Proof.
  rewrite list_elem_of_fmap. split.
  - intros [[n' v] [-> Hin]]. eauto.
  - intros [v Hin]. exists (n, v). auto.
Qed.

(** What [listdir] returns, as names, for a directory. *)
Lemma listdir_names_spec (s : Mem.fs) (path : string) (w : option wildcard)
    (d_only f_only : bool) :
  Mem.isdir s path = true →
  d_only && f_only = false →
  ∃ names,
    Mem.listdir s path w false false d_only f_only = Ok names
    ∧ NoDup names
    ∧ ∀ n, n ∈ names ↔
        ∃ v, Mem.is_name n = true
             ∧ s !! Mem.join (Mem.norm path) n = Some v
             ∧ wildcard_holds w n
             ∧ (d_only = true → Mem.is_dir_node v = true)
             ∧ (f_only = true → Mem.is_file_node v = true).
Proof.
  intros Hdir Hflags. unfold Mem.listdir. rewrite Hdir, Hflags. simpl.
  eexists. split; [reflexivity|]. split.
  - destruct w, d_only, f_only; repeat apply NoDup_fst_filter; apply NoDup_children.
  - intros n. rewrite elem_of_fst.
    split.
    + intros [v Hin]. exists v.
      destruct w, d_only, f_only; try discriminate Hflags;
        repeat (apply elem_of_filter in Hin as [Hin ?]);
        apply elem_of_children in Hin as [? ?]; simpl in *;
        repeat split; auto; discriminate.
    + intros (v & Hn & Hl & Hw & Hd & Hf). exists v.
      destruct w, d_only, f_only; try discriminate Hflags;
        repeat (apply elem_of_filter; split; simpl; auto);
        apply elem_of_children; auto.
Qed.

Lemma norm_no_slash (n : string) :
  Py.contains Path.slash n = false → Mem.norm n = n.
Proof.
  destruct n as [|c n]; [reflexivity|]. simpl.
  intros Hc. apply orb_false_elim in Hc as [Hc _].
  destruct c as [[] [] [] [] [] [] [] []]; try reflexivity. discriminate.
Qed.

Lemma norm_name (n : string) : Mem.is_name n = true → Mem.norm n = n.
Proof.
  unfold Mem.is_name. intros Hn. apply andb_prop in Hn as [_ Hn].
  apply negb_true_iff in Hn. apply norm_no_slash. exact Hn.
Qed.

Lemma is_name_part0 (x : string) :
  Mem.is_name (x +:+ ".part0") = true ↔ Py.contains Path.slash x = false.
Proof.
  unfold Mem.is_name. rewrite contains_app. simpl. rewrite orb_false_r.
  destruct (Py.contains Path.slash x); simpl; rewrite ?andb_false_r, ?andb_true_r.
  - split; discriminate.
  - split; [reflexivity|]. intros _. destruct x; reflexivity.
Qed.

(** ** Running the methods *)

Lemma bind_ok {S A B} (m : M S A) (k : A → M S B) (s s' : S) (a : A) :
  m s = (Ok a, s') → bind m k s = k a s'.
Proof. intros Hm. unfold bind. rewrite Hm. reflexivity. Qed.

(** A comprehension over read-only calls that all succeed. *)
Lemma mapM_query {S A B} (f : S → A → result B) (g : A → B → Prop)
    (s : S) (l : list A) :
  (∀ x, x ∈ l → ∃ y, f s x = Ok y ∧ g x y) →
  ∃ ys, mapM (λ x, query (λ s, f s x)) l s = (Ok ys, s) ∧ Forall2 g l ys.
Proof.
  induction l as [|x l IH]; intros Hall; simpl.
  - exists []. split; [reflexivity|constructor].
  - destruct (Hall x ltac:(left)) as (y & Hy & Hg).
    destruct IH as (ys & Hys & Hfa).
    { intros x' Hx'. apply Hall. right. exact Hx'. }
    exists (y :: ys). split; [|constructor; auto].
    unfold bind, query, ret in *. rewrite Hy, Hys. reflexivity.
Qed.

Lemma exists_true {S} `{WrappedFS S} (s : S) (path : string) :
  fs_exists s path || fs_exists s (PartedFS._encode path 0) = true →
  PartedFS.exists_ path s = (Ok true, s).
Proof. intros Hex. unfold PartedFS.exists_, query. rewrite Hex. reflexivity. Qed.

(** What [listparts] yields for a path directly under the root: names
    that are, read as paths, the part files themselves. *)
Lemma listparts_root (s : Mem.fs) (path : string) (names : list string) :
  Mem.is_root (Path.dirname path) = true →
  PartedFS.listparts path false false s = (Ok names, s) →
  ∀ n, n ∈ names → ∃ data t, Mem.norm n = n ∧ s !! n = Some (Mem.File data t).
Proof.
  intros Hroot Hlp n Hin.
  unfold PartedFS.listparts, query in Hlp. simpl in Hlp.
  destruct (listdir_names_spec s (Path.dirname path)
              (Some (WPattern (Path.basename path +:+ ".part*"))) false true)
    as (names' & Hl & _ & Hspec).
  { unfold Mem.isdir. rewrite Hroot. reflexivity. }
  { reflexivity. }
  rewrite Hl in Hlp. injection Hlp as ->.
  apply Hspec in Hin as (v & Hn & Hlook & _ & _ & Hfile).
  unfold Mem.is_root in Hroot. apply String.eqb_eq in Hroot.
  rewrite Hroot in Hlook. unfold Mem.join in Hlook. simpl in Hlook.
  specialize (Hfile eq_refl). destruct v as [t|data t]; [discriminate|].
  exists data, t. split; [apply norm_name; exact Hn | exact Hlook].
Qed.

(** ** Construction *)

(** C4 (counterexample): constructing the overlay with [max_part_size]
    zero raises nothing; the constructor returns the object. *)
Lemma init_zero_raises_nothing :
  ¬ ∃ e, PartedFS.__init__ (∅ : Mem.fs) 0 = Raise e.
Proof. intros [e He]. discriminate He. Qed.

(** C4 (amended): the constructor accepts every [max_part_size], zero
    and negative ones included, and stores it unchanged next to the
    wrapped filesystem; it raises no error. *)
Theorem init_accepts_any_size :
  ∀ (S : Type) (s : S) (n : Z),
    PartedFS.__init__ s n = Ok (PartedFS.Obj s n)
    ∧ PartedFS.max_part_size (PartedFS.Obj s n) = n.
Proof. intros S s n. split; reflexivity. Qed.

(** ** [open] *)

Section OpenGeneric.

Context {S : Type} `{WrappedFS S}.

(** The guard of [open]: when part 0 of the path is a directory of the
    wrapped filesystem, [open] raises the type-mismatch error in every
    mode and changes nothing. *)
Lemma open_part0_directory_raises (s : S) (path mode : string) :
  fs_isdir s (PartedFS._encode path 0) = true →
  PartedFS.open path mode s = (Raise (ResourceInvalidError path), s).
Proof.
  intros Hdir. unfold PartedFS.open, PartedFS.isdir, bind, query, raise.
  rewrite Hdir. reflexivity.
Qed.

(** C3 (amended): when the wrapped filesystem has neither the path nor
    its part 0, [open] in a mode without [w] and [a] raises the
    not-found error and changes nothing; in a mode with [a] the overlay
    raises no error of its own: the outcome is that of opening part 0 on
    the wrapped filesystem in that mode, wrapped into a one-part file
    object. *)
Theorem open_missing (s : S) (path mode : string) :
  fs_isdir s (PartedFS._encode path 0) = false →
  fs_exists s path = false →
  fs_exists s (PartedFS._encode path 0) = false →
  Py.contains "w" mode = false →
  PartedFS.open path mode s =
    if Py.contains "a" mode then
      match fs_open (PartedFS._encode path 0) mode s with
      | (Ok _, s') => (Ok (PartedFile.Obj [FilePart.Obj]), s')
      | (Raise e, s') => (Raise e, s')
      end
    else (Raise (ResourceNotFoundError path), s).
Proof.
  intros Hdir Hex Hex0 Hw.
  unfold PartedFS.open, PartedFS.isdir, PartedFS.exists_,
    PartedFS.create_file_part, bind, query, raise, ret.
  rewrite Hdir, Hw. simpl.
  destruct (Py.contains "a" mode); simpl.
  - destruct (fs_open (PartedFS._encode path 0) mode s) as [[h|e] s']; reflexivity.
  - rewrite Hex, Hex0. reflexivity.
Qed.

End OpenGeneric.

(** C9 (the code at the failing input): [d] is a directory of the
    wrapped filesystem, with the parts [d.part0] and [d.part1] of a
    logical file of the same name next to it.  The guard of [open] asks
    about [d.part0], which is a file, so [open] in write mode raises
    nothing: it removes both parts and returns a file object over a
    new, empty part 0. *)
Theorem open_directory_truncates :
  fs_isdir Sample.dir_and_parts "d" = true
  ∧ fs_isdir Sample.dir_and_parts (PartedFS._encode "d" 0) = false
  ∧ PartedFS.open "d" "w" Sample.dir_and_parts
    = (Ok (PartedFile.Obj [FilePart.Obj]),
       {[ "d" := Mem.Dir Mem.epoch;
          "d.part0" := Mem.File [] Mem.epoch ]})
  ∧ Mem.read_file Sample.dir_and_parts "d.part0" = Some Sample.bA
  ∧ Mem.read_file Sample.dir_and_parts "d.part1" = Some Sample.bB.
Proof. repeat split; vm_compute; reflexivity. Qed.

(** Read mode on the same directory raises nothing either: the parts
    are opened and the file object is returned. *)
Example open_directory_for_reading :
  PartedFS.open "d" "r" Sample.dir_and_parts
  = (Ok (PartedFile.Obj [FilePart.Obj; FilePart.Obj]), Sample.dir_and_parts).
Proof. vm_compute. reflexivity. Qed.

(** Witness of C3: reading a file that is not there, on the empty
    filesystem. *)
Lemma open_missing_witness :
  fs_isdir (∅ : Mem.fs) (PartedFS._encode "f" 0) = false
  ∧ fs_exists (∅ : Mem.fs) "f" = false
  ∧ fs_exists (∅ : Mem.fs) (PartedFS._encode "f" 0) = false
  ∧ Py.contains "w" "r" = false
  ∧ PartedFS.open "f" "r" (∅ : Mem.fs) = (Raise (ResourceNotFoundError "f"), ∅).
Proof.
  repeat (split; [reflexivity |]).
  apply (open_missing (∅ : Mem.fs) "f" "r"); reflexivity.
Defined.

(** C3 (counterexample): on the empty filesystem the path [f] has no
    part 0, and [open] in append mode raises nothing: it returns a file
    object and part 0 now exists. *)
Lemma open_append_missing_creates :
  fs_exists (∅ : Mem.fs) "f.part0" = false
  ∧ PartedFS.open "f" "a" (∅ : Mem.fs)
    = (Ok (PartedFile.Obj [FilePart.Obj]),
       {["f.part0" := Mem.File [] Mem.epoch]}).
Proof. split; reflexivity. Qed.

(** ** Write sessions *)

(** No write session completes on any wrapped filesystem: the file
    object returned by [open] has no [write]. *)
Lemma write_session_always_raises {S : Type} `{WrappedFS S}
    (s : S) (path : string) (payload : list Byte.byte) :
  ∃ e, fst (write_session path payload s) = Raise e.
Proof.
  unfold write_session, bind, query.
  destruct (PartedFS.open path "wb" s) as [[file|e] s']; simpl; eauto.
Qed.

(** C1 (the code at the failing input): with [max_part_size = 1], the
    write session for the one-byte payload [a] on the empty filesystem
    stops with an attribute error at [write]; what it leaves behind is
    an empty part 0, so the parts do not hold the payload, and reading
    back stops with an attribute error at [read]. *)
Theorem write_session_stores_nothing :
  let payload := [Byte.x61] in
  let after : Mem.fs := {["f.part0" := Mem.File [] Mem.epoch]} in
  PartedFS.__init__ (∅ : Mem.fs) 1 = Ok (PartedFS.Obj ∅ 1)
  ∧ write_session "f" payload (∅ : Mem.fs) = (Raise (AttributeError "write"), after)
  ∧ PartedFS.listparts "f" false false after = (Ok ["f.part0"], after)
  ∧ stored_bytes after ["f.part0"] = []
  ∧ stored_bytes after ["f.part0"] ≠ payload
  ∧ read_back "f" after = (Raise (AttributeError "read"), after).
Proof. repeat split; try reflexivity. discriminate. Qed.

(** ** [listparts] *)

(** C5 (counterexample): next to parts 0, 2 and 10 of [f] lies a file
    [f.partial]; [listparts] returns it although what follows [.part]
    is no index, and the order in which [copy] walks the parts puts
    [f.part10] before [f.part2], so that destination part 1 receives
    the bytes of source part 10. *)
Lemma listparts_keeps_other_suffixes :
  ∃ names s',
    PartedFS.listparts "f" false false Sample.odd_names = (Ok names, Sample.odd_names)
    ∧ "f.partial" ∈ names
    ∧ Py.sorted names = ["f.part0"; "f.part10"; "f.part2"; "f.partial"]
    ∧ PartedFS.copy "f" "g" false Sample.odd_names = (Ok tt, s')
    ∧ Mem.read_file s' "g.part1" = Mem.read_file Sample.odd_names "f.part10"
    ∧ Mem.read_file s' "g.part1" = Some Sample.bC.
Proof.
  eexists _, _. split; [vm_compute; reflexivity|].
  split; [apply list_elem_of_In; vm_compute; tauto|].
  split; [vm_compute; reflexivity|].
  split; [vm_compute; reflexivity|].
  split; vm_compute; reflexivity.
Qed.

(** C5 (amended): for a logical path whose parent directory exists,
    [listparts] returns, each once, exactly the names of the files in
    that directory that match the wildcard made of the basename and
    [.part*]; when the basename has no wildcard characters these are the
    file names that start with the basename and [.part], whatever
    follows. *)
Theorem listparts_matches_wildcard (s : Mem.fs) (path : string) :
  Mem.isdir s (Path.dirname path) = true →
  ∃ names,
    PartedFS.listparts path false false s = (Ok names, s)
    ∧ NoDup names
    ∧ (∀ n, n ∈ names ↔
         Mem.is_name n = true
         ∧ (∃ data t, s !! Mem.join (Mem.norm (Path.dirname path)) n
                      = Some (Mem.File data t))
         ∧ Fnmatch.fnmatch (Path.basename path +:+ ".part*") n = true)
    ∧ (Fnmatch.plain (Path.basename path) = true →
       ∀ n, n ∈ names ↔
         Mem.is_name n = true
         ∧ (∃ data t, s !! Mem.join (Mem.norm (Path.dirname path)) n
                      = Some (Mem.File data t))
         ∧ ∃ suffix, n = Path.basename path +:+ ".part" +:+ suffix).
Proof.
  intros Hdir.
  destruct (listdir_names_spec s (Path.dirname path)
              (Some (WPattern (Path.basename path +:+ ".part*"))) false true
              Hdir eq_refl) as (names & Hl & Hnd & Hspec).
  exists names. unfold PartedFS.listparts, query. simpl. rewrite Hl.
  split; [reflexivity|]. split; [exact Hnd|].
  assert (∀ n, n ∈ names ↔
            Mem.is_name n = true
            ∧ (∃ data t, s !! Mem.join (Mem.norm (Path.dirname path)) n
                         = Some (Mem.File data t))
            ∧ Fnmatch.fnmatch (Path.basename path +:+ ".part*") n = true) as Hchar.
  { intros n. rewrite Hspec. split.
    - intros (v & Hn & Hlook & Hw & _ & Hfile). specialize (Hfile eq_refl).
      destruct v as [t|data t]; [discriminate|]. eauto 6.
    - intros (Hn & (data & t & Hlook) & Hw). exists (Mem.File data t).
      repeat split; auto. }
  split; [exact Hchar|].
  intros Hplain n. rewrite Hchar, (fnmatch_part_star _ n Hplain). reflexivity.
Qed.

(** Witness of C5: the directory with [f.part0], [f.part2], [f.part10]
    and [f.partial]. *)
Lemma listparts_matches_wildcard_witness :
  Mem.isdir Sample.odd_names (Path.dirname "f") = true
  ∧ ∃ names,
      PartedFS.listparts "f" false false Sample.odd_names = (Ok names, Sample.odd_names)
      ∧ NoDup names
      ∧ (∀ n, n ∈ names ↔
           Mem.is_name n = true
           ∧ (∃ data t, Sample.odd_names !! Mem.join (Mem.norm (Path.dirname "f")) n
                        = Some (Mem.File data t))
           ∧ Fnmatch.fnmatch (Path.basename "f" +:+ ".part*") n = true)
      ∧ (Fnmatch.plain (Path.basename "f") = true →
         ∀ n, n ∈ names ↔
           Mem.is_name n = true
           ∧ (∃ data t, Sample.odd_names !! Mem.join (Mem.norm (Path.dirname "f")) n
                        = Some (Mem.File data t))
           ∧ ∃ suffix, n = Path.basename "f" +:+ ".part" +:+ suffix).
Proof.
  split; [reflexivity|].
  apply (listparts_matches_wildcard Sample.odd_names "f"). reflexivity.
Defined.

(** ** [rename] and [copy] *)

(** C2 (the code at the failing input): a source with parts 0, 2 and 5.
    [rename] moves part 0, then asks the wrapped filesystem to rename
    [f.part1], which does not exist, and stops there: parts 2 and 5 stay
    under the source name and the destination has part 0 only. *)
Theorem rename_with_gaps_stops :
  PartedFS.rename "f" "g" Sample.gaps
  = (Raise (ResourceNotFoundError "f.part1"),
     {[ "g.part0" := Mem.File Sample.bA (Sample.at_ 1 5 9);
        "f.part2" := Mem.File Sample.bB (Sample.at_ 7 2 3);
        "f.part5" := Mem.File Sample.bC (Sample.at_ 4 6 8) ]}).
Proof. vm_compute. reflexivity. Qed.

(** On a source whose parts are numbered 0, 1 the same call moves both
    parts. *)
Example rename_contiguous_sample :
  PartedFS.rename "f" "g" Sample.contiguous
  = (Ok tt,
     {[ "g.part0" := Mem.File Sample.bA Mem.epoch;
        "g.part1" := Mem.File Sample.bB Mem.epoch ]}).
Proof. vm_compute. reflexivity. Qed.

(** The sibling [copy] on the same source passes the discovered part
    itself to the wrapped filesystem, and so does fill destination
    indices 0, 1, 2 from source indices 0, 2, 5. *)
Lemma copy_with_gaps_reindexes :
  ∃ s', PartedFS.copy "f" "g" false Sample.gaps = (Ok tt, s')
        ∧ Mem.read_file s' "g.part0" = Some Sample.bA
        ∧ Mem.read_file s' "g.part1" = Some Sample.bB
        ∧ Mem.read_file s' "g.part2" = Some Sample.bC.
Proof. eexists. repeat split; vm_compute; reflexivity. Qed.

(** ** [getsize] *)

Lemma getsize_missing {S} `{WrappedFS S} (s : S) (path : string) :
  fs_exists s path || fs_exists s (PartedFS._encode path 0) = false →
  PartedFS.getsize path s = (Raise (ResourceNotFoundError path), s).
Proof.
  intros Hex. unfold PartedFS.getsize, PartedFS.exists_, bind, query, raise.
  rewrite Hex. reflexivity.
Qed.

Lemma getsize_sum {S} `{WrappedFS S} (s : S) (path : string)
    (names : list string) (sizes : list Z) :
  fs_exists s path || fs_exists s (PartedFS._encode path 0) = true →
  PartedFS.listparts path false false s = (Ok names, s) →
  mapM (λ part, query (λ s, fs_getsize s part)) names s = (Ok sizes, s) →
  PartedFS.getsize path s = (Ok (Py.sum sizes), s).
Proof.
  intros Hex Hlp Hsz. unfold PartedFS.getsize.
  rewrite (bind_ok _ _ _ _ _ (exists_true s path Hex)).
  cbv beta. change (negb true) with false. cbv iota.
  rewrite (bind_ok _ _ _ _ _ Hlp).
  rewrite (bind_ok _ _ _ _ _ Hsz). reflexivity.
Qed.

(** X12: for an existing logical file directly under the root the names
    returned by [listparts] are paths of the parts, and [getsize]
    returns the sum of the byte lengths of the discovered parts. *)
Lemma getsize_root_level (s : Mem.fs) (path : string) (names : list string) :
  Mem.is_root (Path.dirname path) = true →
  fs_exists s path || fs_exists s (PartedFS._encode path 0) = true →
  PartedFS.listparts path false false s = (Ok names, s) →
  ∃ sizes,
    PartedFS.getsize path s = (Ok (Py.sum sizes), s)
    ∧ Forall2 (λ n sz, ∃ data t, s !! n = Some (Mem.File data t)
                                 ∧ sz = Z.of_nat (List.length data))
        names sizes.
Proof.
  intros Hroot Hex Hlp.
  pose proof (listparts_root s path names Hroot Hlp) as Hres.
  destruct (mapM_query (S:=Mem.fs) fs_getsize
              (λ n sz, ∃ data t, s !! n = Some (Mem.File data t)
                                 ∧ sz = Z.of_nat (List.length data))
              s names) as (sizes & Hsizes & Hfs).
  { intros n Hn. destruct (Hres n Hn) as (data & t & Hnorm & Hlook).
    exists (Z.of_nat (List.length data)). split; [|eauto].
    simpl. unfold Mem.getsize. rewrite Hnorm, Hlook. reflexivity. }
  exists sizes. split; [|exact Hfs].
  apply (getsize_sum s path names sizes Hex Hlp Hsizes).
Qed.

(** C7 (the code at the failing input): the logical file
    [/backups/backup.tar] exists and its one part holds three bytes, but
    [listparts] yields the bare name [backup.tar.part0], which [getsize]
    hands to the wrapped filesystem as if it were a path; no such entry
    lies in the root, and the not-found error comes back instead of the
    size. *)
Theorem getsize_in_subdirectory_raises :
  PartedFS.exists_ "/backups/backup.tar" Sample.backups = (Ok true, Sample.backups)
  ∧ PartedFS.listparts "/backups/backup.tar" false false Sample.backups
    = (Ok ["backup.tar.part0"], Sample.backups)
  ∧ fs_getsize Sample.backups "/backups/backup.tar.part0" = Ok 3
  ∧ PartedFS.getsize "/backups/backup.tar" Sample.backups
    = (Raise (ResourceNotFoundError "backup.tar.part0"), Sample.backups).
Proof. repeat split; vm_compute; reflexivity. Qed.

(** ** [getinfo] *)

(** C6 (counterexample): the parts of [f] were created at times 1, 7
    and 4 and last modified at times 5, 2 and 6; [getinfo] reports the
    creation time 6, the latest modification, not 7. *)
Lemma getinfo_created_is_latest_modification :
  ∃ i,
    PartedFS.getinfo "f" Sample.gaps = (Ok i, Sample.gaps)
    ∧ Py.max (p_created_time <$> PartedFS.info_parts i) = Some 7
    ∧ Py.max (p_modified_time <$> PartedFS.info_parts i) = Some 6
    ∧ PartedFS.info_created_time i = 6.
Proof. eexists. repeat split; vm_compute; reflexivity. Qed.

(** C6 (amended): for an existing logical path directly under the root
    with at least one discovered part, [getinfo] returns the info of
    every discovered part, the sum of the part sizes as size, the
    greatest [modified_time] of the parts both as modified and as
    created time, and the greatest [accessed_time] of the parts as
    accessed time. *)
Theorem getinfo_aggregates (s : Mem.fs) (path : string) (names : list string) :
  Mem.is_root (Path.dirname path) = true →
  fs_exists s path || fs_exists s (PartedFS._encode path 0) = true →
  PartedFS.listparts path false false s = (Ok names, s) →
  names ≠ [] →
  ∃ i,
    PartedFS.getinfo path s = (Ok i, s)
    ∧ Forall2 (λ n pi, ∃ data t, s !! n = Some (Mem.File data t)
                                 ∧ pi = Mem.info_of (Mem.File data t))
        names (PartedFS.info_parts i)
    ∧ PartedFS.info_size i = Py.sum (p_size <$> PartedFS.info_parts i)
    ∧ is_max (PartedFS.info_modified_time i) (p_modified_time <$> PartedFS.info_parts i)
    ∧ is_max (PartedFS.info_created_time i) (p_modified_time <$> PartedFS.info_parts i)
    ∧ is_max (PartedFS.info_accessed_time i) (p_accessed_time <$> PartedFS.info_parts i).
Proof.
  intros Hroot Hex Hlp Hne.
  pose proof (listparts_root s path names Hroot Hlp) as Hres.
  destruct (mapM_query (S:=Mem.fs) fs_getinfo
              (λ n pi, ∃ data t, s !! n = Some (Mem.File data t)
                                 ∧ pi = Mem.info_of (Mem.File data t))
              s names) as (infos & Hinfos & Hfa).
  { intros n Hn. destruct (Hres n Hn) as (data & t & Hnorm & Hlook).
    exists (Mem.info_of (Mem.File data t)). split; [|eauto].
    simpl. unfold Mem.getinfo. rewrite Hnorm, Hlook. reflexivity. }
  destruct (mapM_query (S:=Mem.fs) fs_getsize
              (λ n sz, ∃ data t, s !! n = Some (Mem.File data t)
                                 ∧ sz = p_size (Mem.info_of (Mem.File data t)))
              s names) as (sizes & Hsizes & Hfs).
  { intros n Hn. destruct (Hres n Hn) as (data & t & Hnorm & Hlook).
    exists (Z.of_nat (List.length data)). split; [|eauto].
    simpl. unfold Mem.getsize. rewrite Hnorm, Hlook. reflexivity. }
  assert (sizes = p_size <$> infos) as ->.
  { clear -Hfa Hfs. revert infos sizes Hfa Hfs.
    induction names as [|n names IH]; intros infos sizes Hfa Hfs;
      inversion Hfa; inversion Hfs; subst; [reflexivity|].
    simpl. f_equal; [|apply IH; assumption].
    repeat match goal with H : ∃ _, _ |- _ => destruct H as (? & ? & ? & ?) end.
    simplify_eq. reflexivity. }
  assert (infos ≠ []) as Hine.
  { intros ->. inversion Hfa. congruence. }
  destruct (py_max_nonempty (p_modified_time <$> infos)) as [mm Hmm].
  { destruct infos; [congruence|discriminate]. }
  destruct (py_max_nonempty (p_accessed_time <$> infos)) as [ma Hma].
  { destruct infos; [congruence|discriminate]. }
  eexists. split.
  - unfold PartedFS.getinfo.
    rewrite (bind_ok _ _ _ _ _ (exists_true s path Hex)).
    cbv beta. change (negb true) with false. cbv iota.
    rewrite (bind_ok _ _ _ _ _ Hlp).
    rewrite (bind_ok _ _ _ _ _ Hinfos).
    rewrite (bind_ok _ _ _ _ _ (getsize_sum s path names _ Hex Hlp Hsizes)).
    unfold PartedFS.py_max. rewrite Hmm, Hma. reflexivity.
  - simpl. pose proof (py_max_spec _ _ Hmm). pose proof (py_max_spec _ _ Hma).
    auto 10.
Qed.

(** Witness of C6: the file [f] with parts 0, 2 and 5 in the root. *)
Lemma getinfo_aggregates_witness :
  Mem.is_root (Path.dirname "f") = true
  ∧ fs_exists Sample.gaps "f" || fs_exists Sample.gaps (PartedFS._encode "f" 0) = true
  ∧ PartedFS.listparts "f" false false Sample.gaps
    = (Ok ["f.part5"; "f.part2"; "f.part0"], Sample.gaps)
  ∧ ["f.part5"; "f.part2"; "f.part0"] ≠ []
  ∧ ∃ i,
      PartedFS.getinfo "f" Sample.gaps = (Ok i, Sample.gaps)
      ∧ Forall2 (λ n pi, ∃ data t, Sample.gaps !! n = Some (Mem.File data t)
                                   ∧ pi = Mem.info_of (Mem.File data t))
          ["f.part5"; "f.part2"; "f.part0"] (PartedFS.info_parts i)
      ∧ PartedFS.info_size i = Py.sum (p_size <$> PartedFS.info_parts i)
      ∧ is_max (PartedFS.info_modified_time i) (p_modified_time <$> PartedFS.info_parts i)
      ∧ is_max (PartedFS.info_created_time i) (p_modified_time <$> PartedFS.info_parts i)
      ∧ is_max (PartedFS.info_accessed_time i) (p_accessed_time <$> PartedFS.info_parts i).
Proof.
  split; [reflexivity|]. split; [reflexivity|].
  split; [vm_compute; reflexivity|]. split; [discriminate|].
  apply (getinfo_aggregates Sample.gaps "f" ["f.part5"; "f.part2"; "f.part0"]);
    [reflexivity | reflexivity | vm_compute; reflexivity | discriminate].
Defined.

(** ** [listdir] *)


(** A comprehension whose steps all succeed. *)
Lemma traverse_ok {A B} (f : A → result B) (R : A → B → Prop) (l : list A) :
  (∀ x, x ∈ l → ∃ y, f x = Ok y ∧ R x y) →
  ∃ ys, traverse f l = Ok ys ∧ Forall2 R l ys.
Proof.
  induction l as [|x l IH]; intros Hall.
  - exists []. split; [reflexivity|constructor].
  - destruct (Hall x ltac:(left)) as (y & Hy & HR).
    destruct IH as (ys & Hys & Hfa).
    { intros x' Hx'. apply Hall. right. exact Hx'. }
    exists (y :: ys). split; [|constructor; assumption].
    simpl. rewrite Hy, Hys. reflexivity.
Qed.

(** The two listings [listdir] asks of the wrapped filesystem, the
    decoding of the second one, and how the flags select among them. *)
Lemma listdir_decompose (s : Mem.fs) (path : string) (w : option wildcard)
    (full absolute d_only f_only : bool) :
  Mem.isdir s path = true →
  ∃ dirs files,
    fs_listdir s path w full absolute true false = Ok dirs
    ∧ fs_listdir s path (Some (WPattern "*.part0")) full absolute false true = Ok files
    ∧ PartedFS.listdir path w full absolute d_only f_only s
      = (on_ok (λ names, if d_only then dirs
                         else if f_only then names
                         else dirs ++ names)
           (traverse PartedFS._decode files), s).
Proof.
  intros Hdir. simpl. unfold Mem.listdir. rewrite Hdir. simpl.
  eexists _, _. split; [reflexivity|]. split; [reflexivity|].
  unfold PartedFS.listdir, bind, query, lift. simpl. unfold Mem.listdir.
  rewrite Hdir. simpl.
  match goal with
  | |- context [traverse PartedFS._decode ?l] =>
      destruct (traverse PartedFS._decode l)
  end; [|reflexivity].
  destruct d_only, f_only; reflexivity.
Qed.

(** The files of a directory whose names end in [.part0]. *)
Lemma part0_files (s : Mem.fs) (path : string) (files : list string) :
  Mem.isdir s path = true →
  Mem.listdir s path (Some (WPattern "*.part0")) false false false true = Ok files →
  NoDup files
  ∧ ∀ f, f ∈ files ↔
      Mem.is_name f = true
      ∧ (∃ data t, s !! Mem.join (Mem.norm path) f = Some (Mem.File data t))
      ∧ ∃ x, f = x +:+ ".part0".
Proof.
  intros Hdir Hl.
  destruct (listdir_names_spec s path (Some (WPattern "*.part0")) false true
              Hdir eq_refl) as (files' & Hl' & Hnd & Hspec).
  rewrite Hl in Hl'. injection Hl' as <-. split; [exact Hnd|].
  intros f. rewrite Hspec. split.
  - intros (v & Hn & Hlook & Hw & _ & Hfile). specialize (Hfile eq_refl).
    destruct v as [t|data t]; [discriminate|].
    simpl in Hw. apply fnmatch_part0 in Hw. eauto 6.
  - intros (Hn & (data & t & Hlook) & Hx). exists (Mem.File data t).
    repeat split; auto. simpl. apply fnmatch_part0. exact Hx.
Qed.

Lemma fmap_of_Forall2 (files names : list string) :
  Forall2 (λ f n, f = n +:+ ".part0") files names →
  files = (λ n, n +:+ ".part0") <$> names.
Proof.
  induction 1 as [|f n files names Hf _ IH]; [reflexivity|].
  rewrite fmap_cons, <- IH, <- Hf. reflexivity.
Qed.

Lemma part0_suffix_inj (a b : string) : a +:+ ".part0" = b +:+ ".part0" → a = b.
Proof.
  revert b. induction a as [|c a IH]; intros b Heq.
  - destruct b as [|c' b]; [reflexivity|]. exfalso.
    apply (f_equal String.length) in Heq.
    change (String c' b +:+ ".part0") with (String c' (b +:+ ".part0")) in Heq.
    simpl in Heq. rewrite length_app_s in Heq. simpl in Heq. lia.
  - destruct b as [|c' b].
    + exfalso. apply (f_equal String.length) in Heq.
      change (String c a +:+ ".part0") with (String c (a +:+ ".part0")) in Heq.
      simpl in Heq. rewrite length_app_s in Heq. simpl in Heq. lia.
    + injection Heq as -> Heq. f_equal. apply IH. exact Heq.
Qed.

(** The decoded names of the [.part0] files of a directory that holds
    neither [..part0] nor [...part0]: the names with the suffix taken
    off. *)
Lemma decoded_part0_files (s : Mem.fs) (path : string) (files : list string) :
  Mem.isdir s path = true →
  Mem.listdir s path (Some (WPattern "*.part0")) false false false true = Ok files →
  no_dot_names s path →
  ∃ names,
    traverse PartedFS._decode files = Ok names
    ∧ Forall2 (λ f n, f = n +:+ ".part0") files names
    ∧ NoDup names
    ∧ ∀ n, n ∈ names ↔
        Mem.is_name (n +:+ ".part0") = true
        ∧ ∃ data t, s !! Mem.join (Mem.norm path) (n +:+ ".part0")
                    = Some (Mem.File data t).
Proof.
  intros Hdir Hl [Hnb Hnd1].
  destruct (part0_files s path files Hdir Hl) as [Hnd Hspec].
  destruct (traverse_ok PartedFS._decode (λ f n, f = n +:+ ".part0") files)
    as (names & Htr & Hfa).
  { intros f Hf. apply Hspec in Hf as (Hn & (data & t & Hlook) & x & ->).
    exists x. split; [|reflexivity].
    apply decode_part0.
    - apply is_name_part0. exact Hn.
    - intros ->. exact (Hnd1 data t Hlook).
    - intros ->. exact (Hnb data t Hlook). }
  exists names. split; [exact Htr|]. split; [exact Hfa|].
  pose proof (fmap_of_Forall2 files names Hfa) as Hfiles.
  split.
  - apply (NoDup_fmap_1 (λ n, n +:+ ".part0")). rewrite <- Hfiles. exact Hnd.
  - intros n.
    assert (n ∈ names ↔ n +:+ ".part0" ∈ files) as ->.
    { rewrite Hfiles, list_elem_of_fmap. split.
      - intros Hn. exists n. auto.
      - intros (m & Heq & Hm). apply part0_suffix_inj in Heq. congruence. }
    rewrite Hspec. split.
    + intros (Hn & Hlook & _). auto.
    + intros (Hn & Hlook). eauto.
Qed.

(** The listing of the specification's example. *)
Example listdir_sample :
  PartedFS.listdir "" None false false false false Sample.listing
  = (Ok ["sub"; "big.tar"], Sample.listing).
Proof. vm_compute. reflexivity. Qed.

(** A file called [...part0] makes the listing raise. *)
Example listdir_backref_sample :
  PartedFS.listdir "" None false false false false
    ({["...part0" := Mem.File [] Mem.epoch]} : Mem.fs)
  = (Raise (BackReferenceError ".."), {["...part0" := Mem.File [] Mem.epoch]}).
Proof. vm_compute. reflexivity. Qed.

Lemma no_name_clash_sample : no_name_clash Sample.listing "".
Proof.
  intros n t Hlook data t' Hlook'.
  unfold Mem.join in *. simpl in *.
  unfold Sample.listing in Hlook.
  apply lookup_insert_Some in Hlook as [[<- _] | [_ Hlook]].
  - vm_compute in Hlook'. discriminate.
  - apply lookup_insert_Some in Hlook as [[_ ?] | [_ Hlook]]; [discriminate|].
    apply lookup_insert_Some in Hlook as [[_ ?] | [_ Hlook]]; [discriminate|].
    rewrite lookup_empty in Hlook. discriminate.
Qed.

Lemma no_dot_names_sample : no_dot_names Sample.listing "".
Proof. split; intros data t Hlook; vm_compute in Hlook; discriminate. Qed.

(** C8 (counterexample): a directory [d] next to the parts of a logical
    file of the same name is listed twice. *)
Lemma listdir_lists_name_twice :
  PartedFS.listdir "" None false false false false Sample.dir_and_parts
  = (Ok ["d"; "d"], Sample.dir_and_parts)
  ∧ ¬ NoDup ["d"; "d"].
Proof.
  split; [vm_compute; reflexivity|].
  intros Hnd. apply NoDup_cons in Hnd as [Hd _]. apply Hd. left.
Qed.

(** C8 (amended): for every directory, the plain listing is the
    subdirectories, as the wrapped filesystem names them, followed by
    the decoded names of the files that end in [.part0] (and it raises
    when a decoding raises); when no file is called [..part0] or
    [...part0], decoding takes the suffix off every such file; and then
    nothing is listed twice provided no subdirectory has the name of a
    logical file of the same directory. *)
Theorem listdir_merges (s : Mem.fs) (path : string) :
  Mem.isdir s path = true →
  ∃ dirs files,
    PartedFS.listdir path None false false false false s
    = (on_ok (app dirs) (traverse PartedFS._decode files), s)
    ∧ NoDup dirs
    ∧ (∀ n, n ∈ dirs ↔
         Mem.is_name n = true
         ∧ ∃ t, s !! Mem.join (Mem.norm path) n = Some (Mem.Dir t))
    ∧ NoDup files
    ∧ (∀ f, f ∈ files ↔
         Mem.is_name f = true
         ∧ (∃ data t, s !! Mem.join (Mem.norm path) f = Some (Mem.File data t))
         ∧ ∃ x, f = x +:+ ".part0")
    ∧ (no_dot_names s path →
       ∃ names,
         traverse PartedFS._decode files = Ok names
         ∧ Forall2 (λ f n, f = n +:+ ".part0") files names
         ∧ NoDup names
         ∧ (no_name_clash s path → NoDup (dirs ++ names))).
Proof.
  intros Hdir.
  destruct (listdir_decompose s path None false false false false Hdir)
    as (dirs & files & Hd & Hf & Hl).
  destruct (listdir_names_spec s path None true false Hdir eq_refl)
    as (dirs' & Hd' & Hnd & Hspec).
  simpl in Hd, Hf. rewrite Hd in Hd'. injection Hd' as <-.
  destruct (part0_files s path files Hdir Hf) as [Hndf Hfiles].
  assert (∀ n, n ∈ dirs ↔
            Mem.is_name n = true
            ∧ ∃ t, s !! Mem.join (Mem.norm path) n = Some (Mem.Dir t)) as Hdirs.
  { intros n. rewrite Hspec. split.
    - intros (v & Hn & Hlook & _ & Hisd & _). specialize (Hisd eq_refl).
      destruct v as [t|data t]; [eauto|discriminate].
    - intros (Hn & t & Hlook). exists (Mem.Dir t). repeat split; auto. }
  exists dirs, files.
  split; [exact Hl|]. split; [exact Hnd|]. split; [exact Hdirs|].
  split; [exact Hndf|]. split; [exact Hfiles|].
  intros Hdots.
  destruct (decoded_part0_files s path files Hdir Hf Hdots)
    as (names & Htr & Hfa & Hndn & Hnames).
  exists names. split; [exact Htr|]. split; [exact Hfa|]. split; [exact Hndn|].
  intros Hclash. apply NoDup_app. split; [exact Hnd|]. split; [|exact Hndn].
  intros n Hnd' Hnf. apply Hdirs in Hnd' as (_ & t & Hlook).
  apply Hnames in Hnf as (_ & data & t' & Hlook').
  exact (Hclash n t Hlook data t' Hlook').
Qed.

(** Witness of C8: the directory of the specification's example. *)
Lemma listdir_merges_witness :
  Mem.isdir Sample.listing "" = true
  ∧ ∃ dirs files,
      PartedFS.listdir "" None false false false false Sample.listing
      = (on_ok (app dirs) (traverse PartedFS._decode files), Sample.listing)
      ∧ NoDup dirs
      ∧ (∀ n, n ∈ dirs ↔
           Mem.is_name n = true
           ∧ ∃ t, Sample.listing !! Mem.join (Mem.norm "") n = Some (Mem.Dir t))
      ∧ NoDup files
      ∧ (∀ f, f ∈ files ↔
           Mem.is_name f = true
           ∧ (∃ data t, Sample.listing !! Mem.join (Mem.norm "") f
                        = Some (Mem.File data t))
           ∧ ∃ x, f = x +:+ ".part0")
      ∧ (no_dot_names Sample.listing "" →
         ∃ names,
           traverse PartedFS._decode files = Ok names
           ∧ Forall2 (λ f n, f = n +:+ ".part0") files names
           ∧ NoDup names
           ∧ (no_name_clash Sample.listing "" → NoDup (dirs ++ names))).
Proof.
  split; [reflexivity|].
  apply (listdir_merges Sample.listing ""). reflexivity.
Defined.



(** With that wildcard the directory [sub] is filtered out and the
    logical file [big.tar] stays. *)
Example listdir_wildcard_sample :
  PartedFS.listdir "" (Some (WPattern "zzz*")) false false false false Sample.listing
  = (Ok ["big.tar"], Sample.listing).
Proof. vm_compute. reflexivity. Qed.

(** * Further properties of the methods *)


(** ** Part indices as text *)

Lemma digits_no_sep (c : ascii) (d : Decimal.uint) :
  c = Path.dot ∨ c = Path.slash →
  Py.contains c (NilEmpty.string_of_uint d) = false.
Proof.
  intros [-> | ->]; induction d; simpl; auto.
Qed.

Lemma str_of_nat_no_sep (c : ascii) (n : nat) :
  c = Path.dot ∨ c = Path.slash → Py.contains c (Py.str_of_nat n) = false.
Proof.
  intros Hc. unfold Py.str_of_nat, NilZero.string_of_uint.
  destruct (Nat.to_uint n) eqn:E; try (rewrite <- E at 1); try apply digits_no_sep; auto.
  destruct Hc as [-> | ->]; reflexivity.
Qed.

Lemma to_uint_nonnil (n : nat) : Nat.to_uint n ≠ Decimal.Nil.
Proof.
  rewrite <- (Unsigned.of_to n) at 1. rewrite Unsigned.to_of.
  apply unorm_nonnil.
Qed.

Lemma str_of_nat_inj (i j : nat) : Py.str_of_nat i = Py.str_of_nat j → i = j.
Proof.
  unfold Py.str_of_nat. intros Heq.
  apply Unsigned.to_uint_inj.
  pose proof (NilZero.usu _ (to_uint_nonnil i)) as Hi.
  pose proof (NilZero.usu _ (to_uint_nonnil j)) as Hj.
  rewrite Heq in Hi. congruence.
Qed.

(** ** The path codec *)

(** X2: two part indices that encode to the same physical path are
    equal: distinct indices of one logical path never share a part
    file. *)
Theorem encode_index_inj (path : string) (i j : nat) :
  PartedFS._encode path i = PartedFS._encode path j → i = j.
Proof.
  unfold PartedFS._encode. intros Heq.
  apply String.app_inj in Heq. apply String.app_inj in Heq.
  apply str_of_nat_inj. exact Heq.
Qed.

(** Witness of X2. *)
Lemma encode_index_inj_witness :
  PartedFS._encode "backup.tar" 3 = PartedFS._encode "backup.tar" 3
  ∧ 3%nat = 3%nat.
Proof.
  split; [reflexivity|].
  apply (encode_index_inj "backup.tar" 3 3). reflexivity.
Defined.

Lemma pathsplit_encode (path : string) (i : nat) :
  Path.pathsplit (PartedFS._encode path i)
  = (Path.dirname path, Path.basename path +:+ ".part" +:+ Py.str_of_nat i).
Proof.
  unfold Path.dirname, Path.basename, Path.pathsplit, PartedFS._encode.
  destruct (Py.rsplit1 Path.slash path) as [[h t]|] eqn:E.
  - apply rsplit1_Some in E as [-> Ht].
    assert (Py.rsplit1 Path.slash
              ((h +:+ String Path.slash t) +:+ ".part" +:+ Py.str_of_nat i)
            = Some (h, t +:+ ".part" +:+ Py.str_of_nat i)) as ->.
    { apply rsplit1_Some. split.
      - rewrite app_assoc_s. reflexivity.
      - rewrite !contains_app, Ht. simpl.
        apply str_of_nat_no_sep. auto. }
    reflexivity.
  - apply rsplit1_None in E.
    assert (Py.rsplit1 Path.slash (path +:+ ".part" +:+ Py.str_of_nat i) = None) as ->.
    { apply rsplit1_None. rewrite !contains_app, E. simpl.
      apply str_of_nat_no_sep. auto. }
    reflexivity.
Qed.

Lemma decode_path_encode (path : string) (i : nat) :
  Path.pathjoin [Path.dirname path; Path.basename path] = Ok path →
  PartedFS._decode (PartedFS._encode path i) = Ok path.
Proof.
  intros Hnf. unfold PartedFS._decode, Path.splitext.
  rewrite pathsplit_encode.
  assert (Py.rsplit1 Path.dot (Path.basename path +:+ ".part" +:+ Py.str_of_nat i)
          = Some (Path.basename path, "part" +:+ Py.str_of_nat i)) as ->.
  { apply rsplit1_Some. split; [reflexivity|].
    rewrite contains_app. simpl. apply str_of_nat_no_sep. auto. }
  cbv beta iota. rewrite Hnf. reflexivity.
Qed.

(** X1: [_decode] undoes [_encode] for every part index, on every path
    that the path library's join of its own directory and base name
    gives back (a normalised path: no trailing slash, no doubled slash,
    no [.] or [..] component). *)
Theorem decode_encode (path : string) (i : nat) :
  Path.pathjoin [Path.dirname path; Path.basename path] = Ok path →
  PartedFS._decode (PartedFS._encode path i) = Ok path.
Proof.
  apply decode_path_encode.
Qed.

(** Witness of X1. *)
Lemma decode_encode_witness :
  Path.pathjoin [Path.dirname "/backups/backup.tar"; Path.basename "/backups/backup.tar"]
  = Ok "/backups/backup.tar"
  ∧ PartedFS._decode (PartedFS._encode "/backups/backup.tar" 12)
    = Ok "/backups/backup.tar".
Proof.
  split; [vm_compute; reflexivity|].
  apply (decode_encode "/backups/backup.tar" 12). vm_compute. reflexivity.
Defined.

(** On a path that is not normalised [_decode] gives the normalised
    path, not the path itself. *)
Example decode_encode_not_normalised :
  PartedFS._decode (PartedFS._encode "a/" 0) = Ok "a"
  ∧ PartedFS._decode (PartedFS._encode "a//b" 1) = Ok "a/b"
  ∧ PartedFS._decode (PartedFS._encode "./f" 1) = Ok "f"
  ∧ PartedFS._decode (PartedFS._encode "a/../f" 1) = Ok "f".
Proof. repeat split; vm_compute; reflexivity. Qed.


(** ** Keys of the in-memory filesystem *)

Lemma norm_app (a b : string) :
  Mem.norm a ≠ "" → Mem.norm (a +:+ b) = Mem.norm a +:+ b.
Proof.
  induction a as [|c a IH]; [intros Hne; exfalso; apply Hne; reflexivity|].
  intros Hne.
  change (String c a +:+ b) with (String c (a +:+ b)).
  destruct (Ascii.eqb c "/") eqn:E.
  - apply Ascii.eqb_eq in E as ->. simpl in *. auto.
  - assert (∀ x, Mem.norm (String c x) = String c x) as Hn.
    { intros x. simpl. destruct c as [[] [] [] [] [] [] [] []]; try reflexivity.
      discriminate E. }
    rewrite !Hn. reflexivity.
Qed.

Lemma norm_app_nil (a b : string) :
  Mem.norm a = "" → Mem.norm (a +:+ b) = Mem.norm b.
Proof.
  induction a as [|c a IH]; [reflexivity|]. intros He.
  change (String c a +:+ b) with (String c (a +:+ b)).
  destruct (Ascii.eqb c "/") eqn:E.
  - apply Ascii.eqb_eq in E as ->. simpl in *. auto.
  - exfalso. simpl in He.
    destruct c as [[] [] [] [] [] [] [] []]; try discriminate He. discriminate E.
Qed.

(** The key of a path is the key of its directory joined with its
    basename. *)
Lemma norm_pathsplit (p : string) :
  Py.contains Path.slash (Path.basename p) = false
  ∧ (Path.basename p ≠ "" →
     Mem.norm p = Mem.join (Mem.norm (Path.dirname p)) (Path.basename p)).
Proof.
  unfold Path.dirname, Path.basename, Path.pathsplit.
  destruct (Py.rsplit1 Path.slash p) as [[h t]|] eqn:E; simpl.
  - apply rsplit1_Some in E as [-> Ht]. split; [exact Ht|]. intros Hne.
    unfold Mem.join.
    destruct (String.eqb h "") eqn:Eh.
    + apply String.eqb_eq in Eh as ->. simpl. apply norm_no_slash. exact Ht.
    + destruct (String.eqb (Mem.norm h) "") eqn:En.
      * apply String.eqb_eq in En. rewrite norm_app_nil by exact En.
        simpl. apply norm_no_slash. exact Ht.
      * apply String.eqb_neq in En. rewrite norm_app by exact En. reflexivity.
  - apply rsplit1_None in E. split; [exact E|]. intros _.
    unfold Mem.join. simpl. apply norm_no_slash. exact E.
Qed.

Lemma part_name_is_name (b : string) (i : nat) :
  Py.contains Path.slash b = false →
  Mem.is_name (b +:+ ".part" +:+ Py.str_of_nat i) = true.
Proof.
  intros Hb. unfold Mem.is_name. rewrite !contains_app, Hb. simpl.
  rewrite str_of_nat_no_sep by auto. rewrite andb_true_r.
  destruct b; reflexivity.
Qed.

(** The key under which a part is stored. *)
Lemma norm_encode (path : string) (i : nat) :
  Mem.norm (PartedFS._encode path i)
  = Mem.join (Mem.norm (Path.dirname path))
      (Path.basename path +:+ ".part" +:+ Py.str_of_nat i).
Proof.
  destruct (norm_pathsplit (PartedFS._encode path i)) as [_ Hk].
  unfold Path.dirname, Path.basename in *. rewrite pathsplit_encode in Hk.
  simpl in Hk. apply Hk. intros He.
  apply (f_equal String.length) in He. rewrite !length_app_s in He.
  simpl in He. lia.
Qed.

(** X3: when the base name has no wildcard characters and the parent
    directory exists, every part file named by [_encode], whatever its
    index, is among the names [listparts] returns. *)
Theorem encoded_part_is_listed (s : Mem.fs) (path : string) (i : nat) :
  Fnmatch.plain (Path.basename path) = true →
  Mem.isdir s (Path.dirname path) = true →
  Mem.isfile s (PartedFS._encode path i) = true →
  ∃ names,
    PartedFS.listparts path false false s = (Ok names, s)
    ∧ Path.basename path +:+ ".part" +:+ Py.str_of_nat i ∈ names.
Proof.
  intros Hplain Hdir Hfile.
  destruct (listdir_names_spec s (Path.dirname path)
              (Some (WPattern (Path.basename path +:+ ".part*"))) false true
              Hdir eq_refl) as (names & Hl & _ & Hspec).
  exists names. unfold PartedFS.listparts, query. simpl. rewrite Hl.
  split; [reflexivity|].
  unfold Mem.isfile in Hfile. apply andb_prop in Hfile as [_ Hfile].
  rewrite norm_encode in Hfile.
  destruct (s !! Mem.join (Mem.norm (Path.dirname path))
                  (Path.basename path +:+ ".part" +:+ Py.str_of_nat i))
    as [v|] eqn:Hlook; [|discriminate].
  apply Hspec. exists v. split.
  { apply part_name_is_name. apply (norm_pathsplit path). }
  split; [exact Hlook|]. split.
  { simpl. apply fnmatch_part_star; [exact Hplain|]. eauto. }
  split; [discriminate | intros _; exact Hfile].
Qed.

(** Witness of X3. *)
Lemma encoded_part_is_listed_witness :
  Fnmatch.plain (Path.basename "/backups/backup.tar") = true
  ∧ Mem.isdir Sample.backups (Path.dirname "/backups/backup.tar") = true
  ∧ Mem.isfile Sample.backups (PartedFS._encode "/backups/backup.tar" 0) = true
  ∧ ∃ names,
      PartedFS.listparts "/backups/backup.tar" false false Sample.backups
      = (Ok names, Sample.backups)
      ∧ Path.basename "/backups/backup.tar" +:+ ".part" +:+ Py.str_of_nat 0 ∈ names.
Proof.
  split; [reflexivity|]. split; [reflexivity|]. split; [reflexivity|].
  apply (encoded_part_is_listed Sample.backups "/backups/backup.tar" 0); reflexivity.
Defined.

(** A base name with a bracket expression is read as a wildcard and
    does not match its own parts. *)
Example bracket_name_not_listed :
  PartedFS.listparts "a[b]" false false
    ({["a[b].part0" := Mem.File [] Mem.epoch]} : Mem.fs)
  = (Ok [], {["a[b].part0" := Mem.File [] Mem.epoch]}).
Proof. vm_compute. reflexivity. Qed.


(** ** [remove] *)

(** Removing, one after the other, distinct names that are files. *)
Lemma remove_each (names : list string) :
  ∀ s : Mem.fs,
    NoDup names →
    (∀ n, n ∈ names → Mem.norm n = n ∧ ∃ data t, s !! n = Some (Mem.File data t)) →
    ∃ s', forM_ names (λ part, fs_remove part) s = (Ok tt, s')
          ∧ ∀ k, s' !! k = if decide (k ∈ names) then None else s !! k.
Proof.
  induction names as [|n names IH]; intros s Hnd Hall.
  - exists s. split; [reflexivity|]. intros k.
    destruct (decide (k ∈ [])) as [Hin|_]; [inversion Hin|reflexivity].
  - apply NoDup_cons in Hnd as [Hn Hnd].
    destruct (Hall n ltac:(left)) as (Hnorm & data & t & Hlook).
    destruct (IH (delete n s) Hnd) as (s' & Hrun & Hs').
    { intros m Hm. destruct (Hall m ltac:(right; exact Hm)) as (Hnm & d' & t' & Hl').
      split; [exact Hnm|]. exists d', t'.
      rewrite lookup_delete_ne; [exact Hl'|]. intros ->. contradiction. }
    exists s'. split.
    + simpl. unfold bind. simpl. unfold Mem.remove. rewrite Hnorm, Hlook.
      exact Hrun.
    + intros k. rewrite Hs'.
      destruct (decide (k ∈ names)) as [Hk|Hk].
      * rewrite decide_True by (right; exact Hk). reflexivity.
      * destruct (decide (k = n)) as [->|Hkn].
        -- rewrite decide_True by left. apply lookup_delete_eq.
        -- rewrite decide_False.
           ++ apply lookup_delete_ne. congruence.
           ++ intros Hin. apply elem_of_cons in Hin as [?|?]; contradiction.
Qed.

Lemma listparts_root_spec (s : Mem.fs) (path : string) :
  Mem.is_root (Path.dirname path) = true →
  ∃ names,
    PartedFS.listparts path false false s = (Ok names, s)
    ∧ NoDup names
    ∧ ∀ n, n ∈ names ↔
        Mem.is_name n = true
        ∧ (∃ data t, s !! n = Some (Mem.File data t))
        ∧ Fnmatch.fnmatch (Path.basename path +:+ ".part*") n = true.
Proof.
  intros Hroot.
  destruct (listdir_names_spec s (Path.dirname path)
              (Some (WPattern (Path.basename path +:+ ".part*"))) false true)
    as (names & Hl & Hnd & Hspec).
  { unfold Mem.isdir. rewrite Hroot. reflexivity. }
  { reflexivity. }
  exists names. unfold PartedFS.listparts, query. simpl. rewrite Hl.
  split; [reflexivity|]. split; [exact Hnd|].
  unfold Mem.is_root in Hroot. apply String.eqb_eq in Hroot.
  intros n. rewrite Hspec, Hroot. unfold Mem.join. simpl. split.
  - intros (v & Hn & Hlook & Hw & _ & Hfile). specialize (Hfile eq_refl).
    destruct v as [t|data t]; [discriminate|]. eauto 6.
  - intros (Hn & (data & t & Hlook) & Hw). exists (Mem.File data t).
    repeat split; auto.
Qed.

(** X4: for a logical path directly under the root, [remove] succeeds,
    deletes exactly the discovered parts and leaves every other entry
    as it was; afterwards [listparts] finds nothing. *)
Theorem remove_root_level (s : Mem.fs) (path : string) :
  Mem.is_root (Path.dirname path) = true →
  ∃ names s',
    PartedFS.listparts path false false s = (Ok names, s)
    ∧ PartedFS.remove path s = (Ok tt, s')
    ∧ (∀ k, s' !! k = if decide (k ∈ names) then None else s !! k)
    ∧ PartedFS.listparts path false false s' = (Ok [], s').
Proof.
  intros Hroot.
  destruct (listparts_root_spec s path Hroot) as (names & Hlp & Hnd & Hspec).
  destruct (remove_each names s Hnd) as (s' & Hrun & Hs').
  { intros n Hn. apply Hspec in Hn as (Hname & Hfile & _).
    split; [apply norm_name; exact Hname | exact Hfile]. }
  exists names, s'. split; [exact Hlp|]. split.
  { unfold PartedFS.remove. rewrite (bind_ok _ _ _ _ _ Hlp). exact Hrun. }
  split; [exact Hs'|].
  destruct (listparts_root_spec s' path Hroot) as (names' & Hlp' & _ & Hspec').
  rewrite Hlp'. destruct names' as [|n names']; [reflexivity|]. exfalso.
  destruct (proj1 (Hspec' n) ltac:(left)) as (Hname & (data & t & Hlook) & Hw).
  rewrite Hs' in Hlook. destruct (decide (n ∈ names)) as [Hin|Hin]; [discriminate|].
  apply Hin. apply Hspec. eauto 6.
Qed.

(** Witness of X4. *)
Lemma remove_root_level_witness :
  Mem.is_root (Path.dirname "f") = true
  ∧ ∃ names s',
      PartedFS.listparts "f" false false Sample.gaps = (Ok names, Sample.gaps)
      ∧ PartedFS.remove "f" Sample.gaps = (Ok tt, s')
      ∧ (∀ k, s' !! k = if decide (k ∈ names) then None else Sample.gaps !! k)
      ∧ PartedFS.listparts "f" false false s' = (Ok [], s').
Proof.
  split; [reflexivity|].
  apply (remove_root_level Sample.gaps "f"). reflexivity.
Defined.

(** X5: for a logical path directly under the root whose base name has
    no wildcard characters, when the path itself is no entry and its
    part 0 is no directory, [exists] and [isfile] are false after
    [remove]. *)
Theorem remove_then_not_exists (s : Mem.fs) (path : string) :
  Mem.is_root (Path.dirname path) = true →
  Fnmatch.plain (Path.basename path) = true →
  Mem.exists_ s path = false →
  Mem.isdir s (PartedFS._encode path 0) = false →
  ∃ s', PartedFS.remove path s = (Ok tt, s')
        ∧ PartedFS.exists_ path s' = (Ok false, s')
        ∧ PartedFS.isfile path s' = (Ok false, s').
Proof.
  intros Hroot Hplain Hex Hnd.
  destruct (listparts_root_spec s path Hroot) as (names & Hlp & Hndp & Hspec).
  destruct (remove_each names s Hndp) as (s' & Hrun & Hs').
  { intros n Hn. apply Hspec in Hn as (Hname & Hfile & _).
    split; [apply norm_name; exact Hname | exact Hfile]. }
  exists s'. split.
  { unfold PartedFS.remove. rewrite (bind_ok _ _ _ _ _ Hlp). exact Hrun. }
  assert (Mem.is_root (PartedFS._encode path 0) = false) as Hnr.
  { unfold Mem.is_root. apply String.eqb_neq. rewrite norm_encode.
    unfold Mem.is_root in Hroot. apply String.eqb_eq in Hroot. rewrite Hroot.
    unfold Mem.join. simpl. intros He.
    apply (f_equal String.length) in He. rewrite !length_app_s in He.
    simpl in He. lia. }
  assert (s' !! Mem.norm (PartedFS._encode path 0) = None) as Hp0.
  { rewrite Hs'. destruct (decide _) as [|Hnin]; [reflexivity|].
    destruct (s !! Mem.norm (PartedFS._encode path 0)) as [[t|data t]|] eqn:Hl;
      [| |reflexivity].
    - unfold Mem.isdir in Hnd. rewrite Hnr, Hl in Hnd. discriminate.
    - exfalso. apply Hnin. apply Hspec.
      rewrite norm_encode in *.
      unfold Mem.is_root in Hroot. apply String.eqb_eq in Hroot.
      rewrite Hroot in *. unfold Mem.join in *. simpl in *.
      split; [apply part_name_is_name; apply (norm_pathsplit path)|].
      split; [eauto|]. apply fnmatch_part_star; [exact Hplain|]. eauto. }
  assert (s' !! Mem.norm path = None ∧ Mem.is_root path = false) as [Hp Hpr].
  { unfold Mem.exists_ in Hex. apply orb_false_elim in Hex as [Hr Hl].
    split; [|exact Hr]. rewrite Hs'. destruct (decide _); [reflexivity|].
    destruct (s !! Mem.norm path); [discriminate|reflexivity]. }
  split.
  - unfold PartedFS.exists_, query. simpl. unfold Mem.exists_.
    rewrite Hp, Hp0, Hpr, Hnr. reflexivity.
  - unfold PartedFS.isfile, query. simpl. unfold Mem.isfile.
    rewrite Hp0, Hnr. reflexivity.
Qed.

(** Witness of X5. *)
Lemma remove_then_not_exists_witness :
  Mem.is_root (Path.dirname "f") = true
  ∧ Fnmatch.plain (Path.basename "f") = true
  ∧ Mem.exists_ Sample.gaps "f" = false
  ∧ Mem.isdir Sample.gaps (PartedFS._encode "f" 0) = false
  ∧ ∃ s', PartedFS.remove "f" Sample.gaps = (Ok tt, s')
          ∧ PartedFS.exists_ "f" s' = (Ok false, s')
          ∧ PartedFS.isfile "f" s' = (Ok false, s').
Proof.
  split; [reflexivity|]. split; [reflexivity|]. split; [reflexivity|].
  split; [reflexivity|].
  apply (remove_then_not_exists Sample.gaps "f"); reflexivity.
Defined.


(** ** Paths that do not exist *)

Lemma exists_false {S} `{WrappedFS S} (s : S) (path : string) :
  fs_exists s path || fs_exists s (PartedFS._encode path 0) = false →
  PartedFS.exists_ path s = (Ok false, s).
Proof. intros Hex. unfold PartedFS.exists_, query. rewrite Hex. reflexivity. Qed.

(** X6: when the wrapped filesystem has neither the source path nor its
    part 0, [rename], [copy], [getinfo] and [getsize] raise the not-found
    error for that path and change nothing. *)
Theorem missing_source_raises {S} `{WrappedFS S} (s : S) (src dst : string)
    (overwrite : bool) :
  fs_exists s src || fs_exists s (PartedFS._encode src 0) = false →
  PartedFS.rename src dst s = (Raise (ResourceNotFoundError src), s)
  ∧ PartedFS.copy src dst overwrite s = (Raise (ResourceNotFoundError src), s)
  ∧ PartedFS.getinfo src s = (Raise (ResourceNotFoundError src), s)
  ∧ PartedFS.getsize src s = (Raise (ResourceNotFoundError src), s).
Proof.
  intros Hex. pose proof (exists_false s src Hex) as He.
  unfold PartedFS.rename, PartedFS.copy, PartedFS.getinfo, PartedFS.getsize.
  rewrite !(bind_ok _ _ _ _ _ He). repeat split; reflexivity.
Qed.

(** Witness of X6. *)
Lemma missing_source_raises_witness :
  fs_exists Sample.gaps "h" || fs_exists Sample.gaps (PartedFS._encode "h" 0) = false
  ∧ PartedFS.rename "h" "g" Sample.gaps = (Raise (ResourceNotFoundError "h"), Sample.gaps)
  ∧ PartedFS.copy "h" "g" true Sample.gaps = (Raise (ResourceNotFoundError "h"), Sample.gaps)
  ∧ PartedFS.getinfo "h" Sample.gaps = (Raise (ResourceNotFoundError "h"), Sample.gaps)
  ∧ PartedFS.getsize "h" Sample.gaps = (Raise (ResourceNotFoundError "h"), Sample.gaps).
Proof.
  split; [reflexivity|].
  apply (missing_source_raises Sample.gaps "h" "g" true). reflexivity.
Defined.

(** ** [open] *)

Lemma mem_open_ok (p mode : string) (s s' : Mem.fs) (h : handle) :
  Mem.open p mode s = (Ok h, s') → Mem.isfile s' p = true.
Proof.
  unfold Mem.open, Mem.isfile.
  destruct (Mem.is_root p); [discriminate|].
  destruct (negb (Mem.isdir s (Mem.parent (Mem.norm p)))); [discriminate|].
  destruct (s !! Mem.norm p) as [[t|data t]|] eqn:Hl; [discriminate| |].
  - destruct (Py.contains "w" mode); intros [= _ <-]; simpl.
    + rewrite lookup_insert_eq. reflexivity.
    + rewrite Hl. reflexivity.
  - destruct (Py.contains "w" mode || Py.contains "a" mode); [|discriminate].
    intros [= _ <-]. simpl. rewrite lookup_insert_eq. reflexivity.
Qed.

(** X7: whenever [open] in a mode with [w] or [a] returns, it returns a
    file object with exactly one part, and afterwards [isfile] and
    [exists] are true for the path. *)
Theorem open_for_writing_makes_file (s s' : Mem.fs) (path mode : string)
    (f : PartedFile.obj) :
  Py.contains "w" mode || Py.contains "a" mode = true →
  PartedFS.open path mode s = (Ok f, s') →
  f = PartedFile.Obj [FilePart.Obj]
  ∧ PartedFS.isfile path s' = (Ok true, s')
  ∧ PartedFS.exists_ path s' = (Ok true, s').
Proof.
  intros Hmode Hopen.
  unfold PartedFS.open, PartedFS.isdir in Hopen.
  unfold bind at 1 in Hopen. unfold query at 1 in Hopen.
  destruct (fs_isdir s (PartedFS._encode path 0)); [discriminate|].
  assert (negb (Py.contains "w" mode) && negb (Py.contains "a" mode) = false) as Hm.
  { destruct (Py.contains "w" mode), (Py.contains "a" mode); try reflexivity.
    discriminate. }
  rewrite Hm in Hopen. unfold bind at 1 in Hopen.
  match type of Hopen with
  | context [match ?m s with _ => _ end] => destruct (m s) as [[[]|e] s1]
  end; [|discriminate].
  unfold PartedFS.create_file_part, bind, ret in Hopen.
  destruct (fs_open (PartedFS._encode path 0) mode s1) as [[h|e] s2] eqn:Ho;
    [|discriminate].
  injection Hopen as <- <-.
  apply mem_open_ok in Ho.
  split; [reflexivity|].
  unfold PartedFS.isfile, PartedFS.exists_, query. simpl. rewrite Ho.
  split; [reflexivity|].
  assert (Mem.exists_ s2 (PartedFS._encode path 0) = true) as ->.
  { unfold Mem.isfile in Ho. unfold Mem.exists_.
    apply andb_prop in Ho as [_ Ho].
    destruct (s2 !! Mem.norm (PartedFS._encode path 0)); [|discriminate].
    apply orb_true_r. }
  rewrite orb_true_r. reflexivity.
Qed.

(** Witness of X7: appending to a new file inside a directory. *)
Lemma open_for_writing_makes_file_witness :
  Py.contains "w" "ab" || Py.contains "a" "ab" = true
  ∧ PartedFS.open "/backups/new" "ab" Sample.backups
    = (Ok (PartedFile.Obj [FilePart.Obj]),
       <["backups/new.part0" := Mem.File [] Mem.epoch]> Sample.backups)
  ∧ PartedFile.Obj [FilePart.Obj] = PartedFile.Obj [FilePart.Obj]
  ∧ PartedFS.isfile "/backups/new"
      (<["backups/new.part0" := Mem.File [] Mem.epoch]> Sample.backups)
    = (Ok true, <["backups/new.part0" := Mem.File [] Mem.epoch]> Sample.backups)
  ∧ PartedFS.exists_ "/backups/new"
      (<["backups/new.part0" := Mem.File [] Mem.epoch]> Sample.backups)
    = (Ok true, <["backups/new.part0" := Mem.File [] Mem.epoch]> Sample.backups).
Proof.
  split; [reflexivity|]. split; [vm_compute; reflexivity|].
  apply (open_for_writing_makes_file Sample.backups _ "/backups/new" "ab").
  - reflexivity.
  - vm_compute. reflexivity.
Defined.


Lemma parent_name (n : string) : Mem.is_name n = true → Mem.parent n = "".
Proof.
  unfold Mem.is_name, Mem.parent. intros Hn. apply andb_prop in Hn as [_ Hn].
  apply negb_true_iff in Hn. apply rsplit1_None in Hn. rewrite Hn. reflexivity.
Qed.

Lemma is_root_name (n : string) : Mem.is_name n = true → Mem.is_root n = false.
Proof.
  intros Hn. unfold Mem.is_root. rewrite (norm_name n Hn).
  unfold Mem.is_name in Hn. apply andb_prop in Hn as [Hn _].
  apply negb_true_iff in Hn. exact Hn.
Qed.

(** Opening for reading a name that is a file in the root. *)
Lemma mem_open_read (s : Mem.fs) (n mode : string) (data : list Byte.byte)
    (t : Mem.times) :
  Mem.is_name n = true →
  s !! n = Some (Mem.File data t) →
  Py.contains "w" mode = false →
  Mem.open n mode s = (Ok {| h_path := n; h_mode := mode |}, s).
Proof.
  intros Hn Hl Hw. unfold Mem.open.
  rewrite (is_root_name n Hn), (norm_name n Hn), (parent_name n Hn), Hl, Hw.
  reflexivity.
Qed.

(** X8: for an existing logical path directly under the root whose
    part 0 is no directory (the test [isdir] makes), [open] in a mode
    without [w] and [a] returns a file object with one part per
    discovered part, in the order of [listparts], and changes nothing. *)
Theorem open_for_reading_root_level (s : Mem.fs) (path mode : string) :
  Mem.is_root (Path.dirname path) = true →
  fs_isdir s (PartedFS._encode path 0) = false →
  fs_exists s path || fs_exists s (PartedFS._encode path 0) = true →
  Py.contains "w" mode = false →
  Py.contains "a" mode = false →
  ∃ names,
    PartedFS.listparts path false false s = (Ok names, s)
    ∧ PartedFS.open path mode s
      = (Ok (PartedFile.Obj ((λ _, FilePart.Obj) <$> names)), s).
Proof.
  intros Hroot Hdir Hex Hw Ha.
  destruct (listparts_root_spec s path Hroot) as (names & Hlp & _ & Hspec).
  exists names. split; [exact Hlp|].
  assert (mapM (PartedFS.create_file_part mode) names s
          = (Ok ((λ _, FilePart.Obj) <$> names), s)) as Hparts.
  { assert (∀ n, n ∈ names →
              Mem.is_name n = true ∧ ∃ data t, s !! n = Some (Mem.File data t)) as Hall.
    { intros n Hn. apply Hspec in Hn as (? & ? & _). auto. }
    clear Hlp Hspec. induction names as [|n names IH]; [reflexivity|].
    destruct (Hall n ltac:(left)) as (Hn & data & t & Hl).
    simpl. unfold bind at 1. unfold PartedFS.create_file_part at 1.
    unfold bind at 1. simpl fs_open.
    rewrite (mem_open_read s n mode data t Hn Hl Hw). unfold ret at 1.
    unfold bind at 1. rewrite IH; [reflexivity|].
    intros m Hm. apply Hall. right. exact Hm. }
  assert (negb (Py.contains "w" mode) && negb (Py.contains "a" mode) = true) as Hm
    by (rewrite Hw, Ha; reflexivity).
  unfold PartedFS.open, PartedFS.isdir.
  unfold bind at 1. unfold query at 1. rewrite Hdir, Hm. cbv beta iota.
  rewrite (bind_ok _ _ _ _ _ (exists_true s path Hex)). cbv beta iota.
  rewrite (bind_ok _ _ _ _ _ Hlp).
  rewrite (bind_ok _ _ _ _ _ Hparts). reflexivity.
Qed.

(** Witness of X8. *)
Lemma open_for_reading_root_level_witness :
  Mem.is_root (Path.dirname "f") = true
  ∧ fs_isdir Sample.gaps (PartedFS._encode "f" 0) = false
  ∧ fs_exists Sample.gaps "f" || fs_exists Sample.gaps (PartedFS._encode "f" 0) = true
  ∧ Py.contains "w" "rb" = false
  ∧ Py.contains "a" "rb" = false
  ∧ ∃ names,
      PartedFS.listparts "f" false false Sample.gaps = (Ok names, Sample.gaps)
      ∧ PartedFS.open "f" "rb" Sample.gaps
        = (Ok (PartedFile.Obj ((λ _, FilePart.Obj) <$> names)), Sample.gaps).
Proof.
  repeat (split; [reflexivity|]).
  apply (open_for_reading_root_level Sample.gaps "f" "rb"); reflexivity.
Defined.

Lemma isfile_not_isdir (s : Mem.fs) (p : string) :
  Mem.isfile s p = true → Mem.isdir s p = false.
Proof.
  unfold Mem.isfile, Mem.isdir. intros Hf. apply andb_prop in Hf as [Hr Hf].
  apply negb_true_iff in Hr. rewrite Hr. simpl.
  destruct (s !! Mem.norm p) as [[t|data t]|]; try discriminate. reflexivity.
Qed.

Lemma singleton_list (l : list string) (k : string) :
  NoDup l → (∀ n, n ∈ l ↔ n = k) → l = [k].
Proof.
  intros Hnd Hall. destruct l as [|a l].
  - exfalso. pose proof (proj2 (Hall k) eq_refl) as Hin. inversion Hin.
  - assert (a = k) as -> by (apply Hall; left).
    destruct l as [|b l]; [reflexivity|]. exfalso.
    assert (b = k) as -> by (apply Hall; right; left).
    apply NoDup_cons in Hnd as [Hn _]. apply Hn. left.
Qed.

(** X9: for a logical path directly under the root whose part 0 is a
    file (base name without wildcard characters), [open] in a mode with
    [w] removes every discovered part and leaves exactly one part, part
    0, empty; entries whose names do not match the part wildcard are
    untouched. *)
Theorem open_for_writing_truncates (s : Mem.fs) (path mode : string) :
  Mem.is_root (Path.dirname path) = true →
  Fnmatch.plain (Path.basename path) = true →
  Py.contains "w" mode = true →
  Mem.isfile s (PartedFS._encode path 0) = true →
  ∃ s',
    PartedFS.open path mode s = (Ok (PartedFile.Obj [FilePart.Obj]), s')
    ∧ PartedFS.listparts path false false s'
      = (Ok [Path.basename path +:+ ".part" +:+ Py.str_of_nat 0], s')
    ∧ Mem.read_file s' (PartedFS._encode path 0) = Some []
    ∧ ∀ k, Fnmatch.fnmatch (Path.basename path +:+ ".part*") k = false →
           s' !! k = s !! k.
Proof.
  intros Hroot Hplain Hw Hfile.
  assert (fs_isdir s (PartedFS._encode path 0) = false) as Hdir
    by (apply isfile_not_isdir; exact Hfile).
  set (k0 := Path.basename path +:+ ".part" +:+ Py.str_of_nat 0).
  assert (Mem.norm (PartedFS._encode path 0) = k0) as Hkey.
  { rewrite norm_encode. unfold Mem.is_root in Hroot.
    apply String.eqb_eq in Hroot. rewrite Hroot. reflexivity. }
  assert (Mem.is_name k0 = true) as Hk0
    by (apply part_name_is_name; apply (norm_pathsplit path)).
  assert (Fnmatch.fnmatch (Path.basename path +:+ ".part*") k0 = true) as Hk0w
    by (apply fnmatch_part_star; [exact Hplain|]; eauto).
  destruct (listparts_root_spec s path Hroot) as (names & Hlp & Hnd & Hspec).
  destruct (remove_each names s Hnd) as (s1 & Hrun & Hs1).
  { intros n Hn. apply Hspec in Hn as (Hname & Hf & _).
    split; [apply norm_name; exact Hname | exact Hf]. }
  assert (k0 ∈ names) as Hin0.
  { apply Hspec. split; [exact Hk0|]. split; [|exact Hk0w].
    unfold Mem.isfile in Hfile. apply andb_prop in Hfile as [_ Hfile].
    rewrite Hkey in Hfile. destruct (s !! k0) as [[t|data t]|]; try discriminate.
    eauto. }
  assert (Mem.open (PartedFS._encode path 0) mode s1
          = (Ok {| h_path := PartedFS._encode path 0; h_mode := mode |},
             <[k0 := Mem.File [] Mem.epoch]> s1)) as Hopen.
  { unfold Mem.open. unfold Mem.is_root. rewrite Hkey.
    pose proof (is_root_name k0 Hk0) as Hr. unfold Mem.is_root in Hr.
    rewrite (norm_name k0 Hk0) in Hr. rewrite Hr.
    rewrite (parent_name k0 Hk0). simpl negb. cbv iota.
    rewrite Hs1. rewrite decide_True by exact Hin0. rewrite Hw. reflexivity. }
  exists (<[k0 := Mem.File [] Mem.epoch]> s1). split.
  { assert (negb (Py.contains "w" mode) && negb (Py.contains "a" mode) = false) as Hm
      by (rewrite Hw; reflexivity).
    unfold PartedFS.open, PartedFS.isdir.
    unfold bind at 1. unfold query at 1. rewrite Hdir, Hm, Hw. cbv beta iota.
    assert (fs_exists s path || fs_exists s (PartedFS._encode path 0) = true) as Hex.
    { simpl. unfold Mem.exists_ at 2. unfold Mem.isfile in Hfile.
      apply andb_prop in Hfile as [_ Hfile].
      destruct (s !! Mem.norm (PartedFS._encode path 0)); [|discriminate].
      rewrite !orb_true_r. reflexivity. }
    unfold bind at 1. unfold bind at 1.
    rewrite (exists_true s path Hex). cbv beta iota.
    unfold PartedFS.remove. rewrite (bind_ok _ _ _ _ _ Hlp). rewrite Hrun.
    unfold PartedFS.create_file_part, bind, ret. simpl fs_open. rewrite Hopen.
    reflexivity. }
  split.
  { destruct (listparts_root_spec (<[k0 := Mem.File [] Mem.epoch]> s1) path Hroot)
      as (names' & Hlp' & Hnd' & Hspec').
    rewrite Hlp'. f_equal. f_equal. apply singleton_list; [exact Hnd'|].
    intros n. rewrite Hspec'. split.
    - intros (Hn & (data & t & Hl) & Hwn).
      destruct (decide (n = k0)) as [|Hne]; [assumption|]. exfalso.
      rewrite lookup_insert_ne in Hl by congruence. rewrite Hs1 in Hl.
      destruct (decide (n ∈ names)) as [|Hnin]; [discriminate|].
      apply Hnin. apply Hspec. eauto 6.
    - intros ->. split; [exact Hk0|]. split; [|exact Hk0w].
      rewrite lookup_insert_eq. eauto. }
  split.
  { unfold Mem.read_file. rewrite Hkey, lookup_insert_eq. reflexivity. }
  intros k Hk. rewrite lookup_insert_ne by (intros <-; congruence).
  rewrite Hs1. destruct (decide (k ∈ names)) as [Hin|]; [|reflexivity].
  apply Hspec in Hin as (_ & _ & Hwk). congruence.
Qed.

(** Witness of X9. *)
Lemma open_for_writing_truncates_witness :
  Mem.is_root (Path.dirname "f") = true
  ∧ Fnmatch.plain (Path.basename "f") = true
  ∧ Py.contains "w" "wb" = true
  ∧ Mem.isfile Sample.gaps (PartedFS._encode "f" 0) = true
  ∧ ∃ s',
      PartedFS.open "f" "wb" Sample.gaps = (Ok (PartedFile.Obj [FilePart.Obj]), s')
      ∧ PartedFS.listparts "f" false false s'
        = (Ok [Path.basename "f" +:+ ".part" +:+ Py.str_of_nat 0], s')
      ∧ Mem.read_file s' (PartedFS._encode "f" 0) = Some []
      ∧ ∀ k, Fnmatch.fnmatch (Path.basename "f" +:+ ".part*") k = false →
             s' !! k = Sample.gaps !! k.
Proof.
  repeat (split; [reflexivity|]).
  apply (open_for_writing_truncates Sample.gaps "f" "wb"); reflexivity.
Defined.


(** ** [listdir] and [isfile] *)

Lemma join_encode (path n : string) :
  Mem.norm path = path →
  Py.contains Path.slash n = false →
  Mem.norm (PartedFS._encode (Mem.join path n) 0) = Mem.join path (n +:+ ".part0")
  ∧ Mem.is_root (PartedFS._encode (Mem.join path n) 0) = false.
Proof.
  intros Hp Hn.
  assert (Mem.norm (PartedFS._encode (Mem.join path n) 0)
          = Mem.join path (n +:+ ".part0")) as Hk.
  { unfold PartedFS._encode, Mem.join.
    change (Py.str_of_nat 0) with "0".
    destruct (String.eqb path "") eqn:E.
    - apply norm_no_slash. rewrite contains_app, Hn. reflexivity.
    - apply String.eqb_neq in E.
      rewrite !app_assoc_s. rewrite norm_app by (rewrite Hp; exact E).
      rewrite Hp. reflexivity. }
  split; [exact Hk|].
  unfold Mem.is_root. rewrite Hk. apply String.eqb_neq. intros He.
  apply (f_equal String.length) in He. unfold Mem.join in He.
  destruct (String.eqb path ""); rewrite !length_app_s in He; simpl in He; lia.
Qed.

(** X10: for a directory given by its root-relative path that holds no
    file called [..part0] or [...part0], the files [listdir] returns are
    exactly the slash-free names for which [isfile] holds inside that
    directory. *)
Theorem listed_files_are_files (s : Mem.fs) (path : string) :
  Mem.norm path = path →
  Mem.isdir s path = true →
  no_dot_names s path →
  ∃ files,
    PartedFS.listdir path None false false false true s = (Ok files, s)
    ∧ ∀ n, n ∈ files ↔
        Py.contains Path.slash n = false
        ∧ PartedFS.isfile (Mem.join path n) s = (Ok true, s).
Proof.
  intros Hp Hdir Hdots.
  destruct (listdir_decompose s path None false false false true Hdir)
    as (dirs & files & _ & Hf & Hl).
  destruct (decoded_part0_files s path files Hdir Hf Hdots)
    as (names & Htr & _ & _ & Hfiles).
  rewrite Htr in Hl. simpl in Hl.
  exists names. split; [exact Hl|].
  intros n. rewrite Hfiles, is_name_part0, Hp.
  split; intros [Hn Hrest]; (split; [exact Hn|]);
    destruct (join_encode path n Hp Hn) as [Hk Hr].
  - destruct Hrest as (data & t & Hlook).
    unfold PartedFS.isfile, query. simpl. unfold Mem.isfile.
    rewrite Hr, Hk, Hlook. reflexivity.
  - unfold PartedFS.isfile, query in Hrest. simpl in Hrest.
    unfold Mem.isfile in Hrest. rewrite Hr, Hk in Hrest. simpl in Hrest.
    destruct (s !! Mem.join path (n +:+ ".part0")) as [[t|data t]|];
      try discriminate. eauto.
Qed.

(** Witness of X10. *)
Lemma listed_files_are_files_witness :
  Mem.norm "backups" = "backups"
  ∧ Mem.isdir Sample.backups "backups" = true
  ∧ ∃ files,
      PartedFS.listdir "backups" None false false false true Sample.backups
      = (Ok files, Sample.backups)
      ∧ ∀ n, n ∈ files ↔
          Py.contains Path.slash n = false
          ∧ PartedFS.isfile (Mem.join "backups" n) Sample.backups
            = (Ok true, Sample.backups).
Proof.
  split; [reflexivity|]. split; [reflexivity|].
  apply (listed_files_are_files Sample.backups "backups");
    [reflexivity | reflexivity |].
  split; intros data t Hlook; vm_compute in Hlook; discriminate.
Defined.

(** A file called [..part0] is listed under the empty name, for which
    [isfile] does not hold. *)
Example listed_dot_name_is_no_file :
  PartedFS.listdir "" None false false false true
    ({["..part0" := Mem.File [] Mem.epoch]} : Mem.fs)
  = (Ok [""], {["..part0" := Mem.File [] Mem.epoch]})
  ∧ PartedFS.isfile (Mem.join "" "")
      ({["..part0" := Mem.File [] Mem.epoch]} : Mem.fs)
    = (Ok false, {["..part0" := Mem.File [] Mem.epoch]}).
Proof. split; vm_compute; reflexivity. Qed.

(** When no file name makes the decoding raise, the decoding succeeds. *)
Lemma decode_part0_total (x : string) :
  Py.contains Path.slash x = false → x ≠ ".." →
  ∃ n, PartedFS._decode (x +:+ ".part0") = Ok n.
Proof.
  intros Hx Hne. destruct (decide (x = ".")) as [->|Hdot].
  - exists "". vm_compute. reflexivity.
  - exists x. apply decode_part0; assumption.
Qed.

(** X11: with [dirs_only] set, [listdir] returns the wrapped
    filesystem's directory listing whatever [files_only] is, once the
    names of the [.part0] files are decoded (a decoding that raises makes
    the listing raise; none does when the names are listed plain and no
    file is called [...part0]); with both flags set it raises no
    [ValueError], where the wrapped filesystem itself does. *)
Theorem listdir_dirs_only_wins (s : Mem.fs) (path : string) (w : option wildcard)
    (full absolute files_only : bool) :
  Mem.isdir s path = true →
  ∃ dirs files,
    fs_listdir s path w full absolute true false = Ok dirs
    ∧ fs_listdir s path (Some (WPattern "*.part0")) full absolute false true = Ok files
    ∧ PartedFS.listdir path w full absolute true files_only s
      = (on_ok (λ _, dirs) (traverse PartedFS._decode files), s)
    ∧ fs_listdir s path w full absolute true true = Raise ValueError
    ∧ (full = false → absolute = false → no_backref_name s path →
       PartedFS.listdir path w full absolute true files_only s = (Ok dirs, s)).
Proof.
  intros Hdir.
  destruct (listdir_decompose s path w full absolute true files_only Hdir)
    as (dirs & files & Hd & Hf & Hl).
  exists dirs, files. split; [exact Hd|]. split; [exact Hf|]. split; [exact Hl|].
  split.
  { simpl. unfold Mem.listdir. rewrite Hdir. reflexivity. }
  intros -> -> Hnb. rewrite Hl.
  destruct (part0_files s path files Hdir Hf) as [_ Hspec].
  destruct (traverse_ok PartedFS._decode (λ _ _, True) files) as (names & -> & _);
    [|reflexivity].
  intros f Hin. apply Hspec in Hin as (Hn & (data & t & Hlook) & x & ->).
  destruct (decode_part0_total x) as [n Hn'].
  - apply is_name_part0. exact Hn.
  - intros ->. exact (Hnb data t Hlook).
  - exists n. auto.
Qed.

(** Witness of X11. *)
Lemma listdir_dirs_only_wins_witness :
  Mem.isdir Sample.listing "" = true
  ∧ ∃ dirs files,
      fs_listdir Sample.listing "" None false false true false = Ok dirs
      ∧ fs_listdir Sample.listing "" (Some (WPattern "*.part0")) false false false true
        = Ok files
      ∧ PartedFS.listdir "" None false false true true Sample.listing
        = (on_ok (λ _, dirs) (traverse PartedFS._decode files), Sample.listing)
      ∧ fs_listdir Sample.listing "" None false false true true = Raise ValueError
      ∧ (false = false → false = false → no_backref_name Sample.listing "" →
         PartedFS.listdir "" None false false true true Sample.listing
         = (Ok dirs, Sample.listing)).
Proof.
  split; [reflexivity|].
  apply (listdir_dirs_only_wins Sample.listing "" None false false true). reflexivity.
Defined.

(** The directories of the example, with both flags set. *)
Example listdir_dirs_only_sample :
  PartedFS.listdir "" None false false true true Sample.listing
  = (Ok ["sub"], Sample.listing).
Proof. vm_compute. reflexivity. Qed.

(** Witness of X12 (the lemma [getsize_root_level]). *)
Lemma getsize_root_level_witness :
  Mem.is_root (Path.dirname "f") = true
  ∧ fs_exists Sample.gaps "f" || fs_exists Sample.gaps (PartedFS._encode "f" 0) = true
  ∧ PartedFS.listparts "f" false false Sample.gaps
    = (Ok ["f.part5"; "f.part2"; "f.part0"], Sample.gaps)
  ∧ ∃ sizes,
      PartedFS.getsize "f" Sample.gaps = (Ok (Py.sum sizes), Sample.gaps)
      ∧ Forall2 (λ n sz, ∃ data t, Sample.gaps !! n = Some (Mem.File data t)
                                   ∧ sz = Z.of_nat (List.length data))
          ["f.part5"; "f.part2"; "f.part0"] sizes.
Proof.
  split; [reflexivity|]. split; [reflexivity|]. split; [vm_compute; reflexivity|].
  apply (getsize_root_level Sample.gaps "f" ["f.part5"; "f.part2"; "f.part0"]);
    [reflexivity | reflexivity | vm_compute; reflexivity].
Defined.


(** ** Destination parts *)

Lemma norm_idem (p : string) : Mem.norm (Mem.norm p) = Mem.norm p.
Proof.
  induction p as [|c p IH]; [reflexivity|].
  destruct (Ascii.eqb c "/") eqn:E.
  - apply Ascii.eqb_eq in E as ->. exact IH.
  - assert (Mem.norm (String c p) = String c p) as Hn.
    { simpl. destruct c as [[] [] [] [] [] [] [] []]; try reflexivity.
      discriminate E. }
    rewrite !Hn. reflexivity.
Qed.

Lemma isdir_norm (s : Mem.fs) (p : string) :
  Mem.isdir s (Mem.norm p) = Mem.isdir s p.
Proof. unfold Mem.isdir, Mem.is_root. rewrite norm_idem. reflexivity. Qed.

Lemma parent_join (d x : string) :
  Mem.is_name x = true → Mem.parent (Mem.join d x) = d.
Proof.
  intros Hx. unfold Mem.join. destruct (String.eqb d "") eqn:E.
  - apply String.eqb_eq in E as ->. apply parent_name. exact Hx.
  - unfold Mem.parent.
    assert (Py.rsplit1 Path.slash (d +:+ String Path.slash x) = Some (d, x)) as Hr.
    { apply rsplit1_Some. split; [reflexivity|].
      unfold Mem.is_name in Hx. apply andb_prop in Hx as [_ Hx].
      apply negb_true_iff in Hx. exact Hx. }
    change (d +:+ "/" +:+ x) with (d +:+ String Path.slash x). rewrite Hr.
    reflexivity.
Qed.

Lemma join_inj (d x y : string) : Mem.join d x = Mem.join d y → x = y.
Proof.
  unfold Mem.join. destruct (String.eqb d ""); [auto|].
  intros Heq. apply String.app_inj in Heq. apply String.app_inj in Heq. exact Heq.
Qed.

Lemma join_nonempty (d x : string) : x ≠ "" → Mem.join d x ≠ "".
Proof.
  intros Hx. unfold Mem.join. destruct (String.eqb d ""); [exact Hx|].
  intros He. apply (f_equal String.length) in He.
  rewrite !length_app_s in He. simpl in He. lia.
Qed.

(** The keys of the parts of one logical path: distinct for distinct
    indices, never the root, all in the directory of the path. *)
Lemma part_keys (dst : string) :
  (∀ i j, Mem.norm (PartedFS._encode dst i) = Mem.norm (PartedFS._encode dst j) → i = j)
  ∧ (∀ i, Mem.is_root (PartedFS._encode dst i) = false)
  ∧ (∀ i, Mem.parent (Mem.norm (PartedFS._encode dst i))
          = Mem.norm (Path.dirname dst)).
Proof.
  split; [|split].
  - intros i j. rewrite !norm_encode. intros Heq. apply join_inj in Heq.
    apply String.app_inj in Heq. apply String.app_inj in Heq.
    apply str_of_nat_inj. exact Heq.
  - intros i. unfold Mem.is_root. apply String.eqb_neq. rewrite norm_encode.
    apply join_nonempty. intros He. apply (f_equal String.length) in He.
    rewrite !length_app_s in He. simpl in He. lia.
  - intros i. rewrite norm_encode. apply parent_join.
    apply part_name_is_name. apply (norm_pathsplit dst).
Qed.

Lemma isdir_insert_file (s : Mem.fs) (k d : string) (data : list Byte.byte)
    (t : Mem.times) :
  s !! k = None → Mem.isdir s d = true →
  Mem.isdir (<[k := Mem.File data t]> s) d = true.
Proof.
  unfold Mem.isdir. intros Hk Hd. destruct (Mem.is_root d); [reflexivity|].
  simpl in *. destruct (decide (k = Mem.norm d)) as [->|Hne].
  - rewrite Hk in Hd. discriminate.
  - rewrite lookup_insert_ne by exact Hne. exact Hd.
Qed.

(** ** [copy] *)

Lemma copy_loop (dst : string) (overwrite : bool) (l : list string) :
  ∀ (j : nat) (s : Mem.fs),
    (∀ n, n ∈ l → Mem.norm n = n ∧ ∃ data t, s !! n = Some (Mem.File data t)) →
    Mem.isdir s (Path.dirname dst) = true →
    (∀ i, (j ≤ i < j + List.length l)%nat →
          s !! Mem.norm (PartedFS._encode dst i) = None) →
    ∃ s',
      forM_ (Py.enumerate_from j l)
        (λ '(idx, part_src), fs_copy part_src (PartedFS._encode dst idx) overwrite) s
      = (Ok tt, s')
      ∧ (∀ i n, l !! i = Some n →
                s' !! Mem.norm (PartedFS._encode dst (j + i)) = s !! n)
      ∧ (∀ k, (∀ i, (j ≤ i < j + List.length l)%nat →
                    k ≠ Mem.norm (PartedFS._encode dst i)) →
              s' !! k = s !! k).
Proof.
  destruct (part_keys dst) as (Hinj & Hnr & Hpar).
  induction l as [|n l IH]; intros j s Hall Hdir Hfree.
  - exists s. split; [reflexivity|]. split; [intros i n Hl; discriminate Hl|auto].
  - destruct (Hall n ltac:(left)) as (Hnorm & data & t & Hlook).
    assert (s !! Mem.norm (PartedFS._encode dst j) = None) as Hj
      by (apply Hfree; simpl; lia).
    set (s1 := <[Mem.norm (PartedFS._encode dst j) := Mem.File data t]> s).
    assert (Mem.copy n (PartedFS._encode dst j) overwrite s = (Ok tt, s1)) as Hstep.
    { unfold Mem.copy. rewrite Hnorm, Hlook, Hpar, isdir_norm, Hdir.
      unfold Mem.isdir, Mem.exists_. rewrite Hnr, Hj. simpl.
      rewrite andb_false_r. reflexivity. }
    destruct (IH (S j) s1) as (s' & Hrun & Hdst & Hother).
    { intros m Hm. destruct (Hall m ltac:(right; exact Hm)) as (Hnm & d' & t' & Hl').
      split; [exact Hnm|]. exists d', t'. unfold s1.
      rewrite lookup_insert_ne; [exact Hl'|]. intros Heq. congruence. }
    { apply isdir_insert_file; assumption. }
    { intros i Hi. unfold s1. rewrite lookup_insert_ne.
      - apply Hfree. simpl. lia.
      - intros Heq. apply Hinj in Heq. lia. }
    exists s'. split.
    { simpl. unfold bind. simpl fs_copy. rewrite Hstep. exact Hrun. }
    split.
    + intros i m Hl. destruct i as [|i]; simpl in Hl.
      * injection Hl as <-. rewrite Nat.add_0_r. rewrite Hother.
        -- unfold s1. rewrite lookup_insert_eq. symmetry. exact Hlook.
        -- intros i Hi Heq. apply Hinj in Heq. lia.
      * replace (j + S i)%nat with (S j + i)%nat by lia.
        rewrite (Hdst i m Hl). unfold s1.
        apply list_elem_of_lookup_2 in Hl.
        destruct (Hall m ltac:(right; exact Hl)) as (_ & d' & t' & Hl').
        rewrite lookup_insert_ne; [reflexivity|]. intros Heq. congruence.
    + intros k Hk. rewrite Hother.
      * unfold s1. rewrite lookup_insert_ne; [reflexivity|].
        intros Heq. apply (Hk j); [simpl; lia|]. congruence.
      * intros i Hi. apply Hk. simpl. lia.
Qed.

(** X13: for an existing source directly under the root, a destination
    whose directory exists and whose first N part paths are free (N the
    number of discovered parts), [copy] succeeds; destination part i
    then holds the bytes of the i-th source part in sorted order, and
    every entry other than the N destination parts is as before (the
    source parts included). *)
Theorem copy_reindexes (s : Mem.fs) (src dst : string) (overwrite : bool)
    (names : list string) :
  Mem.is_root (Path.dirname src) = true →
  fs_exists s src || fs_exists s (PartedFS._encode src 0) = true →
  PartedFS.listparts src false false s = (Ok names, s) →
  Mem.isdir s (Path.dirname dst) = true →
  (∀ i, (i < List.length names)%nat → Mem.exists_ s (PartedFS._encode dst i) = false) →
  ∃ s',
    PartedFS.copy src dst overwrite s = (Ok tt, s')
    ∧ (∀ i n, Py.sorted names !! i = Some n →
              Mem.read_file s' (PartedFS._encode dst i) = Mem.read_file s n
              ∧ Mem.isfile s' (PartedFS._encode dst i) = true)
    ∧ (∀ k, (∀ i, (i < List.length names)%nat →
                  k ≠ Mem.norm (PartedFS._encode dst i)) →
            s' !! k = s !! k).
Proof.
  intros Hroot Hex Hlp Hdir Hfree.
  pose proof (listparts_root s src names Hroot Hlp) as Hres.
  assert (List.length (Py.sorted names) = List.length names) as Hlen
    by (apply Permutation_length, sorted_perm).
  destruct (part_keys dst) as (_ & Hnr & _).
  destruct (copy_loop dst overwrite (Py.sorted names) 0 s) as (s' & Hrun & Hdst & Hother).
  { intros n Hn. rewrite sorted_perm in Hn.
    destruct (Hres n Hn) as (data & t & Hnorm & Hl). eauto. }
  { exact Hdir. }
  { intros i Hi. rewrite Hlen in Hi.
    specialize (Hfree i ltac:(lia)). unfold Mem.exists_ in Hfree.
    apply orb_false_elim in Hfree as [_ Hfree].
    destruct (s !! Mem.norm (PartedFS._encode dst i)); [discriminate|reflexivity]. }
  exists s'. split.
  { unfold PartedFS.copy. rewrite (bind_ok _ _ _ _ _ (exists_true s src Hex)).
    cbv beta. change (negb true) with false. cbv iota.
    rewrite (bind_ok _ _ _ _ _ Hlp). exact Hrun. }
  split.
  - intros i n Hl. specialize (Hdst i n Hl). simpl in Hdst.
    apply list_elem_of_lookup_2 in Hl. rewrite sorted_perm in Hl.
    destruct (Hres n Hl) as (data & t & Hnorm & Hlook).
    unfold Mem.read_file, Mem.isfile. rewrite Hdst, Hnorm, Hlook, Hnr. auto.
  - intros k Hk. apply Hother. intros i Hi. apply Hk. lia.
Qed.

(** Witness of X13: the source with parts 0, 2 and 5. *)
Lemma copy_reindexes_witness :
  Mem.is_root (Path.dirname "f") = true
  ∧ fs_exists Sample.gaps "f" || fs_exists Sample.gaps (PartedFS._encode "f" 0) = true
  ∧ PartedFS.listparts "f" false false Sample.gaps
    = (Ok ["f.part5"; "f.part2"; "f.part0"], Sample.gaps)
  ∧ Mem.isdir Sample.gaps (Path.dirname "g") = true
  ∧ (∀ i, (i < List.length ["f.part5"; "f.part2"; "f.part0"])%nat →
          Mem.exists_ Sample.gaps (PartedFS._encode "g" i) = false)
  ∧ ∃ s',
      PartedFS.copy "f" "g" false Sample.gaps = (Ok tt, s')
      ∧ (∀ i n, Py.sorted ["f.part5"; "f.part2"; "f.part0"] !! i = Some n →
                Mem.read_file s' (PartedFS._encode "g" i) = Mem.read_file Sample.gaps n
                ∧ Mem.isfile s' (PartedFS._encode "g" i) = true)
      ∧ (∀ k, (∀ i, (i < List.length ["f.part5"; "f.part2"; "f.part0"])%nat →
                    k ≠ Mem.norm (PartedFS._encode "g" i)) →
              s' !! k = Sample.gaps !! k).
Proof.
  assert (∀ i, (i < List.length ["f.part5"; "f.part2"; "f.part0"])%nat →
               Mem.exists_ Sample.gaps (PartedFS._encode "g" i) = false) as Hfree.
  { intros i Hi. simpl in Hi.
    destruct i as [|[|[|i]]]; [reflexivity | reflexivity | reflexivity | lia]. }
  split; [reflexivity|]. split; [reflexivity|]. split; [vm_compute; reflexivity|].
  split; [reflexivity|]. split; [exact Hfree|].
  apply (copy_reindexes Sample.gaps "f" "g" false ["f.part5"; "f.part2"; "f.part0"]);
    [reflexivity | reflexivity | vm_compute; reflexivity | reflexivity | exact Hfree].
Defined.


(** ** [rename] *)

Lemma isdir_delete_file (s : Mem.fs) (k d : string) (data : list Byte.byte)
    (t : Mem.times) :
  s !! k = Some (Mem.File data t) → Mem.isdir s d = true →
  Mem.isdir (delete k s) d = true.
Proof.
  unfold Mem.isdir. intros Hk Hd. destruct (Mem.is_root d); [reflexivity|].
  simpl in *. destruct (decide (k = Mem.norm d)) as [->|Hne].
  - rewrite Hk in Hd. discriminate.
  - rewrite lookup_delete_ne by exact Hne. exact Hd.
Qed.

Lemma encode_name_inj (b : string) (i j : nat) :
  PartedFS._encode b i = PartedFS._encode b j → i = j.
Proof.
  unfold PartedFS._encode. intros Heq.
  apply String.app_inj in Heq. apply String.app_inj in Heq.
  apply str_of_nat_inj. exact Heq.
Qed.

Lemma rename_loop (b dst : string) (l : list string) :
  Py.contains Path.slash b = false →
  (∀ n, n ∈ l → PartedFS._decode n = Ok b) →
  ∀ (j : nat) (s : Mem.fs),
    (∀ i, (j ≤ i < j + List.length l)%nat →
          ∃ data t, s !! PartedFS._encode b i = Some (Mem.File data t)) →
    Mem.isdir s (Path.dirname dst) = true →
    (∀ i, (j ≤ i < j + List.length l)%nat →
          s !! Mem.norm (PartedFS._encode dst i) = None) →
    ∃ s',
      forM_ (Py.enumerate_from j l)
        (λ '(idx, part),
           name <- lift (PartedFS._decode part) ;;
           let part_src := PartedFS._encode name idx in
           let part_dst := PartedFS._encode dst idx in
           fs_rename part_src part_dst) s
      = (Ok tt, s')
      ∧ (∀ i, (j ≤ i < j + List.length l)%nat →
              s' !! Mem.norm (PartedFS._encode dst i) = s !! PartedFS._encode b i
              ∧ s' !! PartedFS._encode b i = None)
      ∧ (∀ k, (∀ i, (j ≤ i < j + List.length l)%nat →
                    k ≠ PartedFS._encode b i
                    ∧ k ≠ Mem.norm (PartedFS._encode dst i)) →
              s' !! k = s !! k).
Proof.
  intros Hb Hdec.
  destruct (part_keys dst) as (Hinj & Hnr & Hpar).
  assert (∀ i, Mem.norm (PartedFS._encode b i) = PartedFS._encode b i) as Hsn.
  { intros i. apply norm_name. apply part_name_is_name. exact Hb. }
  induction l as [|n l IH]; intros j s Hsrc Hdir Hfree.
  - exists s. split; [reflexivity|]. split; [intros i Hi; simpl in Hi; lia|auto].
  - destruct (Hsrc j ltac:(simpl; lia)) as (data & t & Hlook).
    assert (s !! Mem.norm (PartedFS._encode dst j) = None) as Hj
      by (apply Hfree; simpl; lia).
    assert (PartedFS._encode b j ≠ Mem.norm (PartedFS._encode dst j)) as Hsd
      by congruence.
    set (s1 := <[Mem.norm (PartedFS._encode dst j) := Mem.File data t]>
                 (delete (PartedFS._encode b j) s)).
    assert (Mem.rename (PartedFS._encode b j)
              (PartedFS._encode dst j) s = (Ok tt, s1)) as Hstep.
    { unfold Mem.rename.
      rewrite Hsn, Hlook, Hpar, isdir_norm, Hdir.
      unfold Mem.exists_. rewrite Hnr, Hj. reflexivity. }
    assert (IHn : ∀ m, m ∈ l → PartedFS._decode m = Ok b)
      by (intros m Hm; apply Hdec; right; exact Hm).
    destruct (IH IHn (S j) s1) as (s' & Hrun & Hmoved & Hother).
    { intros i Hi. destruct (Hsrc i ltac:(simpl; lia)) as (d' & t' & Hl').
      exists d', t'. unfold s1.
      rewrite lookup_insert_ne, lookup_delete_ne; [exact Hl'| |].
      - intros Heq. apply encode_name_inj in Heq. lia.
      - intros Heq. specialize (Hfree j ltac:(simpl; lia)). congruence. }
    { apply isdir_insert_file.
      - rewrite lookup_delete_ne by exact Hsd. exact Hj.
      - eapply isdir_delete_file; eassumption. }
    { intros i Hi. unfold s1. rewrite lookup_insert_ne, lookup_delete_ne.
      - apply Hfree. simpl. lia.
      - intros Heq. specialize (Hfree i ltac:(simpl; lia)). congruence.
      - intros Heq. apply Hinj in Heq. lia. }
    exists s'. split.
    { simpl. unfold bind at 1. unfold bind at 1. unfold lift at 1.
      rewrite (Hdec n ltac:(left)). cbv beta iota zeta. simpl fs_rename.
      rewrite Hstep. exact Hrun. }
    split.
    + intros i Hi. simpl in Hi. destruct (decide (i = j)) as [->|Hne].
      * rewrite !Hother.
        -- unfold s1. rewrite lookup_insert_eq.
           rewrite lookup_insert_ne by congruence.
           rewrite lookup_delete_eq. auto.
        -- intros i Hi'. split.
           ++ intros Heq. apply encode_name_inj in Heq. lia.
           ++ intros Heq. specialize (Hfree i ltac:(simpl; lia)). congruence.
        -- intros i Hi'. split.
           ++ intros Heq. destruct (Hsrc i ltac:(simpl; lia)) as (? & ? & ?).
              congruence.
           ++ intros Heq. apply Hinj in Heq. lia.
      * destruct (Hmoved i ltac:(lia)) as [Hd Hs]. split; [|exact Hs].
        rewrite Hd. unfold s1.
        rewrite lookup_insert_ne, lookup_delete_ne; [reflexivity| |].
        -- intros Heq. apply encode_name_inj in Heq. lia.
        -- intros Heq. destruct (Hsrc i ltac:(simpl; lia)) as (? & ? & ?).
           congruence.
    + intros k Hk. rewrite Hother.
      * destruct (Hk j ltac:(simpl; lia)) as [Hk1 Hk2]. unfold s1.
        rewrite lookup_insert_ne, lookup_delete_ne; congruence.
      * intros i Hi. apply Hk. simpl. lia.
Qed.

(** When every index below the number of parts is present, the parts
    are exactly the encoded names of those indices. *)
Lemma contiguous_names (b : string) (names : list string) :
  NoDup names →
  (∀ i, (i < List.length names)%nat → PartedFS._encode b i ∈ names) →
  ∀ n, n ∈ names → ∃ i, (i < List.length names)%nat ∧ n = PartedFS._encode b i.
Proof.
  intros Hnd Hall n Hn.
  set (l := PartedFS._encode b <$> seq 0 (List.length names)).
  assert (l ≡ₚ names) as Hperm.
  { apply submseteq_length_Permutation.
    - apply NoDup_submseteq.
      + apply NoDup_fmap_2; [|apply NoDup_seq].
        intros i j. apply encode_name_inj.
      + intros x Hx. apply list_elem_of_fmap in Hx as (i & -> & Hi).
        apply elem_of_seq in Hi. apply Hall. lia.
    - unfold l. rewrite length_fmap, length_seq. reflexivity. }
  rewrite <- Hperm in Hn. apply list_elem_of_fmap in Hn as (i & -> & Hi).
  apply elem_of_seq in Hi. exists i. split; [lia|reflexivity].
Qed.

(** X14: for an existing source directly under the root, with a base
    name other than [.] and [..], whose part set has no gap (every index
    below the number of discovered parts is present), a destination
    whose directory exists and whose first N part paths are free,
    [rename] succeeds; destination part i then holds the bytes source
    part i held, the source parts are gone, and every other entry is as
    before. *)
Theorem rename_contiguous (s : Mem.fs) (src dst : string) (names : list string) :
  Mem.is_root (Path.dirname src) = true →
  Path.basename src ≠ "." →
  Path.basename src ≠ ".." →
  fs_exists s src || fs_exists s (PartedFS._encode src 0) = true →
  PartedFS.listparts src false false s = (Ok names, s) →
  (∀ i, (i < List.length names)%nat →
        PartedFS._encode (Path.basename src) i ∈ names) →
  Mem.isdir s (Path.dirname dst) = true →
  (∀ i, (i < List.length names)%nat → Mem.exists_ s (PartedFS._encode dst i) = false) →
  ∃ s',
    PartedFS.rename src dst s = (Ok tt, s')
    ∧ (∀ i, (i < List.length names)%nat →
            Mem.read_file s' (PartedFS._encode dst i)
            = Mem.read_file s (PartedFS._encode src i)
            ∧ Mem.isfile s' (PartedFS._encode dst i) = true
            ∧ Mem.exists_ s' (PartedFS._encode src i) = false)
    ∧ (∀ k, (∀ i, (i < List.length names)%nat →
                  k ≠ Mem.norm (PartedFS._encode src i)
                  ∧ k ≠ Mem.norm (PartedFS._encode dst i)) →
            s' !! k = s !! k).
Proof.
  intros Hroot Hdot Hdots Hex Hlp Hcont Hdir Hfree.
  set (b := Path.basename src) in *.
  assert (Py.contains Path.slash b = false) as Hb by apply (norm_pathsplit src).
  assert (∀ i, Mem.norm (PartedFS._encode src i) = PartedFS._encode b i) as Hsk.
  { intros i. rewrite norm_encode. unfold Mem.is_root in Hroot.
    apply String.eqb_eq in Hroot. rewrite Hroot. reflexivity. }
  destruct (listparts_root_spec s src Hroot) as (names' & Hlp' & Hnd & Hspec).
  rewrite Hlp in Hlp'. injection Hlp' as <-.
  pose proof (contiguous_names b names Hnd Hcont) as Hshape.
  assert (List.length (Py.sorted names) = List.length names) as Hlen
    by (apply Permutation_length, sorted_perm).
  destruct (part_keys dst) as (_ & Hnr & _).
  destruct (part_keys src) as (_ & Hsnr & _).
  destruct (rename_loop b dst (Py.sorted names) Hb) with (j := 0%nat) (s := s)
    as (s' & Hrun & Hmoved & Hother).
  { intros n Hn. rewrite sorted_perm in Hn.
    destruct (Hshape n Hn) as (i & _ & ->).
    apply decode_path_encode. unfold Path.dirname, Path.basename, Path.pathsplit.
    pose proof Hb as Hb'. apply rsplit1_None in Hb'. rewrite Hb'.
    apply pathjoin_name; assumption. }
  { intros i Hi. rewrite Hlen in Hi.
    apply (Hspec (PartedFS._encode b i)). apply Hcont. lia. }
  { exact Hdir. }
  { intros i Hi. rewrite Hlen in Hi.
    specialize (Hfree i ltac:(lia)). unfold Mem.exists_ in Hfree.
    apply orb_false_elim in Hfree as [_ Hfree].
    destruct (s !! Mem.norm (PartedFS._encode dst i)); [discriminate|reflexivity]. }
  exists s'. split.
  { unfold PartedFS.rename. rewrite (bind_ok _ _ _ _ _ (exists_true s src Hex)).
    cbv beta. change (negb true) with false. cbv iota.
    rewrite (bind_ok _ _ _ _ _ Hlp). exact Hrun. }
  split.
  - intros i Hi. destruct (Hmoved i ltac:(lia)) as [Hd Hs].
    destruct (proj1 (Hspec (PartedFS._encode b i)) (Hcont i Hi))
      as (_ & (data & t & Hlook) & _).
    unfold Mem.read_file, Mem.isfile, Mem.exists_.
    rewrite Hd, Hsk, Hlook, Hnr, Hs, Hsnr. auto.
  - intros k Hk. apply Hother. intros i Hi. rewrite Hlen in Hi.
    destruct (Hk i ltac:(lia)) as [Hk1 Hk2]. rewrite Hsk in Hk1. auto.
Qed.

(** Witness of X14. *)
Lemma rename_contiguous_witness :
  Mem.is_root (Path.dirname "f") = true
  ∧ Path.basename "f" ≠ "."
  ∧ Path.basename "f" ≠ ".."
  ∧ fs_exists Sample.contiguous "f"
    || fs_exists Sample.contiguous (PartedFS._encode "f" 0) = true
  ∧ PartedFS.listparts "f" false false Sample.contiguous
    = (Ok ["f.part1"; "f.part0"], Sample.contiguous)
  ∧ (∀ i, (i < List.length ["f.part1"; "f.part0"])%nat →
          PartedFS._encode (Path.basename "f") i ∈ ["f.part1"; "f.part0"])
  ∧ Mem.isdir Sample.contiguous (Path.dirname "g") = true
  ∧ (∀ i, (i < List.length ["f.part1"; "f.part0"])%nat →
          Mem.exists_ Sample.contiguous (PartedFS._encode "g" i) = false)
  ∧ ∃ s',
      PartedFS.rename "f" "g" Sample.contiguous = (Ok tt, s')
      ∧ (∀ i, (i < List.length ["f.part1"; "f.part0"])%nat →
              Mem.read_file s' (PartedFS._encode "g" i)
              = Mem.read_file Sample.contiguous (PartedFS._encode "f" i)
              ∧ Mem.isfile s' (PartedFS._encode "g" i) = true
              ∧ Mem.exists_ s' (PartedFS._encode "f" i) = false)
      ∧ (∀ k, (∀ i, (i < List.length ["f.part1"; "f.part0"])%nat →
                    k ≠ Mem.norm (PartedFS._encode "f" i)
                    ∧ k ≠ Mem.norm (PartedFS._encode "g" i)) →
              s' !! k = Sample.contiguous !! k).
Proof.
  assert (∀ i, (i < List.length ["f.part1"; "f.part0"])%nat →
               PartedFS._encode (Path.basename "f") i ∈ ["f.part1"; "f.part0"]) as Hcont.
  { intros i Hi. simpl in Hi. destruct i as [|[|i]]; [| |lia].
    - right. left.
    - left. }
  assert (∀ i, (i < List.length ["f.part1"; "f.part0"])%nat →
               Mem.exists_ Sample.contiguous (PartedFS._encode "g" i) = false) as Hfree.
  { intros i Hi. simpl in Hi. destruct i as [|[|i]]; [reflexivity | reflexivity | lia]. }
  split; [reflexivity|]. split; [vm_compute; discriminate|].
  split; [vm_compute; discriminate|].
  split; [reflexivity|]. split; [vm_compute; reflexivity|].
  split; [exact Hcont|]. split; [reflexivity|]. split; [exact Hfree|].
  apply (rename_contiguous Sample.contiguous "f" "g" ["f.part1"; "f.part0"]);
    [reflexivity | vm_compute; discriminate | vm_compute; discriminate
    | reflexivity | vm_compute; reflexivity | exact Hcont
    | reflexivity | exact Hfree].
Defined.


(** ** Existing paths without parts *)

(** X15: on a path that exists but has no discovered part (a
    directory, say), [getsize] is 0, [getinfo] raises [ValueError],
    and [remove], [rename] and [copy] succeed without changing
    anything. *)
Theorem existing_path_without_parts {S} `{WrappedFS S} (s : S) (path dst : string)
    (overwrite : bool) :
  fs_exists s path || fs_exists s (PartedFS._encode path 0) = true →
  PartedFS.listparts path false false s = (Ok [], s) →
  PartedFS.getsize path s = (Ok 0, s)
  ∧ PartedFS.getinfo path s = (Raise ValueError, s)
  ∧ PartedFS.remove path s = (Ok tt, s)
  ∧ PartedFS.rename path dst s = (Ok tt, s)
  ∧ PartedFS.copy path dst overwrite s = (Ok tt, s).
Proof.
  intros Hex Hlp. pose proof (exists_true s path Hex) as He.
  assert (PartedFS.getsize path s = (Ok 0, s)) as Hsize.
  { apply (getsize_sum s path [] [] Hex Hlp). reflexivity. }
  split; [exact Hsize|]. split.
  { unfold PartedFS.getinfo. rewrite (bind_ok _ _ _ _ _ He).
    cbv beta. change (negb true) with false. cbv iota.
    rewrite (bind_ok _ _ _ _ _ Hlp). simpl mapM.
    unfold bind at 1. unfold ret at 1. rewrite (bind_ok _ _ _ _ _ Hsize).
    reflexivity. }
  split.
  { unfold PartedFS.remove. rewrite (bind_ok _ _ _ _ _ Hlp). reflexivity. }
  split.
  - unfold PartedFS.rename. rewrite (bind_ok _ _ _ _ _ He).
    cbv beta. change (negb true) with false. cbv iota.
    rewrite (bind_ok _ _ _ _ _ Hlp). reflexivity.
  - unfold PartedFS.copy. rewrite (bind_ok _ _ _ _ _ He).
    cbv beta. change (negb true) with false. cbv iota.
    rewrite (bind_ok _ _ _ _ _ Hlp). reflexivity.
Qed.

(** Witness of X15: the directory [sub]. *)
Lemma existing_path_without_parts_witness :
  fs_exists Sample.listing "sub"
  || fs_exists Sample.listing (PartedFS._encode "sub" 0) = true
  ∧ PartedFS.listparts "sub" false false Sample.listing = (Ok [], Sample.listing)
  ∧ PartedFS.getsize "sub" Sample.listing = (Ok 0, Sample.listing)
  ∧ PartedFS.getinfo "sub" Sample.listing = (Raise ValueError, Sample.listing)
  ∧ PartedFS.remove "sub" Sample.listing = (Ok tt, Sample.listing)
  ∧ PartedFS.rename "sub" "g" Sample.listing = (Ok tt, Sample.listing)
  ∧ PartedFS.copy "sub" "g" false Sample.listing = (Ok tt, Sample.listing).
Proof.
  split; [reflexivity|]. split; [vm_compute; reflexivity|].
  apply (existing_path_without_parts Sample.listing "sub" "g" false);
    [reflexivity | vm_compute; reflexivity].
Defined.
